(** * Fingertips: the Confluence question-answering loop

    A shallow embedding of [work/fingertips/confluence/agents/openai.py]
    (the assistant run loop) and [work/fingertips/confluence/managers/aichat.py]
    (the retry supervisor, the markup stripper and the chunker), with the
    properties of the specification stated over it.

    Python values are modelled as follows: [str] as [string] (characters are
    [ascii]), [int] as [Z], [None]-able values as [option], a raised exception
    as the [Raise] outcome, and the list object bound to the default argument
    of [generate_response] as a cell of a heap of list objects. *)

From Stdlib Require Import ZArith Ascii.
From stdpp Require Import gmap strings list.
From Equations Require Import Equations.

Local Open Scope Z_scope.
Set Warnings "-register-all".

(** ** Python exceptions and values *)

Inductive PyExn : Type :=
| JSONDecodeError
| AttributeError
| TypeError
| ValueError
| KeyError
| IndexError
| ExternalError (what : string).

(** A configuration value read with [os.getenv(name, default)]: the
    environment gives a [str], the default given in the source is an [int]. *)
Inductive PyVal : Type :=
| PyInt (z : Z)
| PyStr (s : string).

Definition getenv (environ : gmap string string) (name : string) (default : PyVal) : PyVal :=
  match environ !! name with
  | Some s => PyStr s
  | None => default
  end.

(** ** Strings *)

Module Str.

Definition len (s : string) : Z := Z.of_nat (String.length s).

Fixpoint drop (n : nat) (s : string) : string :=
  match n, s with
  | O, _ => s
  | S _, EmptyString => EmptyString
  | S n', String _ r => drop n' r
  end.

Fixpoint take (n : nat) (s : string) : string :=
  match n, s with
  | O, _ => EmptyString
  | S _, EmptyString => EmptyString
  | S n', String c r => String c (take n' r)
  end.

(** A slice bound as Python normalises it: a negative bound counts from the
    end, and the result is clamped to [0, len]. *)
Definition clamp (n i : Z) : Z :=
  if i <? 0 then Z.max 0 (i + n) else Z.min i n.

(** [s[i:j]] *)
Definition slice (s : string) (i j : Z) : string :=
  let a := clamp (len s) i in
  let b := clamp (len s) j in
  take (Z.to_nat (b - a)) (drop (Z.to_nat a) s).

(** [sep.join(parts)] *)
Definition join (sep : string) (parts : list string) : string :=
  String.concat sep parts.


Definition is_empty (s : string) : bool :=
  match s with
  | EmptyString => true
  | String _ _ => false
  end.

Definition newline : string := String (ascii_of_nat 10) EmptyString.

End Str.

(** [range(start, stop, step)], as a list; a zero step raises [ValueError]. *)
Definition py_range (start stop step : Z) : PyExn + list Z :=
  if step =? 0 then inl ValueError
  else if 0 <? step then
    inr ((fun k : nat => start + Z.of_nat k * step)
           <$> seq 0 (Z.to_nat ((stop - start + step - 1) / step)))
  else
    inr ((fun k : nat => start + Z.of_nat k * step)
           <$> seq 0 (Z.to_nat ((start - stop - step - 1) / (- step)))).

(** ** Markup stripping and chunking ([AIChatManager.process_result]) *)

Module Chunker.

(** [CONTEXT_LIMIT = os.getenv("OPENAI_MODEL_CONTEXT_LIMIT", 100000)] *)
Definition CONTEXT_LIMIT (environ : gmap string string) : PyVal :=
  getenv environ "OPENAI_MODEL_CONTEXT_LIMIT" (PyInt 100000).

Definition is_gt (c : ascii) : bool := Ascii.eqb c ">"%char.
Definition is_lt (c : ascii) : bool := Ascii.eqb c "<"%char.
Definition is_newline (c : ascii) : bool := Ascii.eqb c (ascii_of_nat 10).

(** The lazy [.*?>] after an opening [<]: the shortest run of characters
    other than a newline that is followed by [>]. The result is what is left
    of the subject after the match; [None] when [.] meets a newline or the
    end of the subject first. *)
Fixpoint match_rest (s : string) : option string :=
  match s with
  | EmptyString => None
  | String c r =>
      if is_gt c then Some r
      else if is_newline c then None
      else match_rest r
  end.

(** The pattern ["<.*?>"] tried at the start of [s]. *)
Definition match_tag (s : string) : option string :=
  match s with
  | EmptyString => None
  | String c r => if is_lt c then match_rest r else None
  end.

(** [re.sub("<.*?>", "", s)]: from left to right, a match is dropped and the
    scan goes on after it; where the pattern does not match, the character is
    kept and the scan moves one character on. *)
Equations? strip_tags (s : string) : string by wf (String.length s) lt :=
  strip_tags EmptyString := EmptyString;
  strip_tags (String c r) with Logic.inspect (match_tag (String c r)) := {
    | exist _ (Some rest) Hm => strip_tags rest;
    | exist _ None _ => String c (strip_tags r) }.
Proof.
  clear strip_tags. simpl in Hm. destruct (is_lt c); [|discriminate].
  revert rest Hm. induction r as [|d r IH]; intros rest; simpl; [discriminate|].
  destruct (is_gt d).
  - intros [= ->]. lia.
  - destruct (is_newline d); [discriminate|].
    intros Hm. apply IH in Hm. lia.
Qed.

(** The list comprehension
    [[content_body[i : i + CONTEXT_LIMIT]
      for i in range(0, len(content_body), CONTEXT_LIMIT)]]. *)
Definition chunks (limit : PyVal) (content_body : string) : PyExn + list string :=
  match limit with
  | PyStr _ => inl TypeError
  | PyInt l =>
      match py_range 0 (Str.len content_body) l with
      | inl e => inl e
      | inr starts => inr ((fun i => Str.slice content_body i (i + l)) <$> starts)
      end
  end.

(** The number of chunks: [len(range(0, n, limit))] for a positive limit. *)
Definition count (limit n : Z) : nat := Z.to_nat ((n - 0 + limit - 1) / limit).

(** The [k]-th chunk, on naturals. *)
Definition chunk_at (l : nat) (text : string) (k : nat) : string :=
  Str.take l (Str.drop (k * l) text).


End Chunker.

(** ** Outcomes of effectful code

    A method that reads and mutates the world either returns a value, raises
    an exception, or (in the model only) runs out of the fuel that bounds its
    loops and recursive calls. *)

Inductive Outcome (W A : Type) : Type :=
| Ret (a : A) (w : W)
| Raise (e : PyExn) (w : W)
| OutOfFuel.

Arguments Ret {W A} a w.
Arguments Raise {W A} e w.
Arguments OutOfFuel {W A}.

Definition bind {W A B} (m : Outcome W A) (k : A -> W -> Outcome W B) : Outcome W B :=
  match m with
  | Ret a w => k a w
  | Raise e w => Raise e w
  | OutOfFuel => OutOfFuel
  end.

(** Pure code that may raise. *)
Definition ebind {A B} (m : PyExn + A) (k : A -> PyExn + B) : PyExn + B :=
  match m with
  | inl e => inl e
  | inr a => k a
  end.

Definition lift {W A} (m : PyExn + A) (w : W) : Outcome W A :=
  match m with
  | inl e => Raise e w
  | inr a => Ret a w
  end.

Notation "'try' x <- m 'in' k" := (ebind m (fun x => k))
  (at level 10, x name, m at level 100, k at level 200, only parsing).

(** [[f(x) for x in xs]] where [f] may raise: the first exception, in list
    order, is the one that is raised. *)
Fixpoint map_raise {A B} (f : A -> PyExn + B) (xs : list A) : PyExn + list B :=
  match xs with
  | [] => inr []
  | x :: rest =>
      try y <- f x in
      try ys <- map_raise f rest in
      inr (y :: ys)
  end.

(** ** The assistant run loop ([agents/openai.py], [managers/openai.py]) *)

Module Agent.

(** Values exchanged as JSON; a [dict] is the list of its items. *)
Inductive JSON : Type :=
| JNull
| JBool (b : bool)
| JNum (z : Z)
| JStr (s : string)
| JArr (items : list JSON)
| JObj (fields : list (string * JSON)).

Fixpoint assoc (key : string) (fields : list (string * JSON)) : option JSON :=
  match fields with
  | [] => None
  | (k, v) :: rest => if String.eqb k key then Some v else assoc key rest
  end.

(** [v.get(key, default)]: only a [dict] has the method. *)
Definition py_get (v : JSON) (key : string) (default : JSON) : PyExn + JSON :=
  match v with
  | JObj fields => inr (match assoc key fields with Some x => x | None => default end)
  | _ => inl AttributeError
  end.

(** [v[key]] for a string key. *)
Definition py_getitem (v : JSON) (key : string) : PyExn + JSON :=
  match v with
  | JObj fields => match assoc key fields with Some x => inr x | None => inl KeyError end
  | _ => inl TypeError
  end.

Record ToolCall : Type := {
  call_id : string;             (* tool_call.id *)
  function_name : string;       (* tool_call.function.name *)
  function_arguments : string   (* tool_call.function.arguments *)
}.

Record ToolOutput : Type := {
  tool_call_id : string;
  output : string
}.

Record RequiredAction : Type := {
  action_type : string;                (* required_action.type *)
  tool_calls : list ToolCall           (* required_action.submit_tool_outputs.tool_calls *)
}.

Record Run : Type := {
  run_id : string;
  status : string;
  required_action : option RequiredAction
}.

Record ContentPart : Type := {
  part_type : string;    (* content[i].type *)
  text_value : string    (* content[i].text.value *)
}.

Record ThreadMessage : Type := {
  message_id : string;
  content : list ContentPart
}.

(** What the agent calls and does not define: the assistant service (a state
    machine of its own, which each call may advance), the [json] module and
    the Confluence client held by the manager. *)
Record Env : Type := {
  Svc : Type;
  threads_create : Svc -> string * Svc;
  assistants_create : Svc -> string * Svc;
  messages_create : string -> string -> Svc -> ThreadMessage * Svc;
  messages_list : string -> Svc -> list ThreadMessage;
  runs_create : string -> string -> Svc -> Run * Svc;
  runs_retrieve : string -> string -> Svc -> Run * Svc;
  runs_submit_tool_outputs : string -> string -> list ToolOutput -> Svc -> Run * Svc;
  json_loads : string -> PyExn + JSON;
  json_dumps : JSON -> string;
  confluence_cql : JSON -> Z -> PyExn + JSON;
  confluence_get_page_by_id : JSON -> string -> PyExn + JSON
}.

(** The agent's fields, the service it talks to, and the record of every
    [submit_tool_outputs] call made so far (oldest first). *)
Record World (E : Env) : Type := {
  svc : Svc E;
  _threads : gmap string string;
  _assistant : option string;
  submitted : list (list ToolOutput)
}.

Arguments svc {E} w.
Arguments _threads {E} w.
Arguments _assistant {E} w.
Arguments submitted {E} w.


Section Agent.

Context (E : Env).

Definition set_svc (w : World E) (s : Svc E) : World E :=
  {| svc := s; _threads := _threads w; _assistant := _assistant w;
     submitted := submitted w |}.

(** [OpenAIManager.search_confluence] *)
Definition search_confluence (cql_query : JSON) : PyExn + JSON :=
  confluence_cql E cql_query 5.

(** [OpenAIManager.load_confluence_page] *)
Definition load_confluence_page (page_or_content_id : JSON) : PyExn + JSON :=
  try result <- confluence_get_page_by_id E page_or_content_id "body.view" in
  try body <- py_getitem result "body" in
  try view <- py_getitem body "view" in
  py_getitem view "value".

(** [OpenAIAgent.create_message] *)
Definition create_message (thread_id content : string) (w : World E) : ThreadMessage * World E :=
  let '(m, s) := messages_create E thread_id content (svc w) in (m, set_svc w s).

(** The [assistant] property: created on first use, then kept. *)
Definition assistant (w : World E) : string * World E :=
  match _assistant w with
  | Some a => (a, w)
  | None =>
      let '(a, s) := assistants_create E (svc w) in
      (a, {| svc := s; _threads := _threads w; _assistant := Some a;
             submitted := submitted w |})
  end.

(** [OpenAIAgent.get_openai_thread] *)
Definition get_openai_thread (thread_key : string) (w : World E) : string * World E :=
  match _threads w !! thread_key with
  | Some t => (t, w)
  | None =>
      let '(t, s) := threads_create E (svc w) in
      (t, {| svc := s; _threads := <[thread_key := t]> (_threads w);
             _assistant := _assistant w; submitted := submitted w |})
  end.

(** [OpenAIAgent.create_run] *)
Definition create_run (thread_id : string) (w : World E) : Run * World E :=
  let '(a, w1) := assistant w in
  let '(r, s) := runs_create E thread_id a (svc w1) in (r, set_svc w1 s).

(** One [runs.retrieve] call. *)
Definition retrieve (thread_id run_id : string) (w : World E) : Run * World E :=
  let '(r, s) := runs_retrieve E thread_id run_id (svc w) in (r, set_svc w s).

(** [OpenAIAgent.submit_search_confluence_tool_outputs]: one call of
    [runs.submit_tool_outputs], with a list of one output. *)
Definition submit_search_confluence_tool_outputs
    (thread_id run_id tool_call_id results : string) (w : World E) : Run * World E :=
  let outputs := [ {| tool_call_id := tool_call_id; output := results |} ] in
  let '(r, s) := runs_submit_tool_outputs E thread_id run_id outputs (svc w) in
  (r, {| svc := s; _threads := _threads w; _assistant := _assistant w;
         submitted := submitted w ++ [outputs] |}).

(** The body of the loop of [handle_submit_tool_outputs] up to the test
    [results is not None]: the two [if]s on the tool's name. *)
Definition tool_results (tool_call : ToolCall) : PyExn + option string :=
  let results : option string := None in
  try results <-
    (if String.eqb (function_name tool_call) "search_confluence" then
       try arguments <- json_loads E (function_arguments tool_call) in
       try cql_query <- py_get arguments "cql_query" JNull in
       try results <- search_confluence cql_query in
       try result_count <- py_get results "size" (JNum 0) in
       inr (Some (json_dumps E results))
     else inr results) in
  try results <-
    (if String.eqb (function_name tool_call) "load_confluence_page" then
       try arguments <- json_loads E (function_arguments tool_call) in
       try page_or_content_id <- py_get arguments "page_or_content_id" JNull in
       try page <- load_confluence_page page_or_content_id in
       inr (Some (json_dumps E page))
     else inr results) in
  inr results.

(** [OpenAIAgent.handle_submit_tool_outputs]: the [return] sits inside the
    [for] loop; falling off the loop returns [None]. *)
Fixpoint handle_submit_tool_outputs (tool_calls : list ToolCall)
    (thread_id run_id : string) (w : World E) : Outcome (World E) (option Run) :=
  match tool_calls with
  | [] => Ret None w
  | tool_call :: rest =>
      match tool_results tool_call with
      | inl e => Raise e w
      | inr (Some results) =>
          let '(r, w') :=
            submit_search_confluence_tool_outputs
              thread_id run_id (call_id tool_call) results w in
          Ret (Some r) w'
      | inr None => handle_submit_tool_outputs rest thread_id run_id w
      end
  end.

Definition in_completed_or_requires_action (s : string) : bool :=
  String.eqb s "completed" || String.eqb s "requires_action".

(** The [while] loop of [wait_for_run], entered with the run just retrieved:
    poll again until the status is [completed] or [requires_action]. One
    unit of fuel pays for one turn. *)
Fixpoint poll_while (fuel : nat) (run : Run) (thread_id run_id : string)
    (w : World E) : Outcome (World E) Run :=
  match fuel with
  | O => OutOfFuel
  | S fuel' =>
      if negb (in_completed_or_requires_action (status run)) then
        let '(run', w') := retrieve thread_id run_id w in
        poll_while fuel' run' thread_id run_id w'
      else Ret run w
  end.

(** [OpenAIAgent.wait_for_run]. The fuel bounds the turns of the loop and
    the depth of the recursive calls. After the loop the status is one of
    the two awaited ones, so when it is not [completed] the test of
    [run.required_action.type] is evaluated. *)
Fixpoint wait_for_run (fuel : nat) (thread_id run_id : string) (w : World E)
    : Outcome (World E) Run :=
  match fuel with
  | O => OutOfFuel
  | S fuel' =>
      let '(run, w0) := retrieve thread_id run_id w in
      bind (poll_while fuel run thread_id run_id w0) (fun run w1 =>
        if String.eqb (status run) "completed" then Ret run w1
        else if String.eqb (status run) "requires_action" then
          match required_action run with
          | None => Raise AttributeError w1
          | Some action =>
              if String.eqb (action_type action) "submit_tool_outputs" then
                bind (handle_submit_tool_outputs (tool_calls action) thread_id run_id w1)
                  (fun _ w2 => wait_for_run fuel' thread_id run_id w2)
              else Ret run w1
          end
        else Ret run w1)
  end.

(** [OpenAIAgent.get_thread_messages] *)
Definition get_thread_messages (thread_id : string) (w : World E) : list ThreadMessage :=
  messages_list E thread_id (svc w).

(** [OpenAIAgent.extract_relevant_messages] *)
Fixpoint extract_relevant_messages (messages : list ThreadMessage) (message_id0 : string)
    : list ThreadMessage :=
  match messages with
  | [] => []
  | msg :: rest =>
      if String.eqb (message_id msg) message_id0 then []
      else msg :: extract_relevant_messages rest message_id0
  end.

(** [OpenAIAgent.send_message] *)
Definition send_message (fuel : nat) (message thread_key : string) (w : World E)
    : Outcome (World E) (list ThreadMessage) :=
  let '(thread, w1) := get_openai_thread thread_key w in
  let '(message, w2) := create_message thread message w1 in
  let '(run, w3) := create_run thread w2 in
  bind (wait_for_run fuel thread (run_id run) w3) (fun run w4 =>
    let messages := get_thread_messages thread w4 in
    let relevant_messages := extract_relevant_messages messages (message_id message) in
    Ret relevant_messages w4).

(** [OpenAIManager.get_session_thread_key]; an absent argument is [None]. *)
Definition falsy (o : option string) : bool :=
  match o with
  | None => true
  | Some s => Str.is_empty s
  end.

Definition get_session_thread_key (slack_user slack_channel : option string)
    : PyExn + option string :=
  if falsy slack_user && falsy slack_channel then inl ValueError
  else inr (match slack_channel with Some c => Some c | None => slack_user end).

(** The comprehension of [OpenAIManager.answer]:
    [[msg.content[0].text.value for msg in response
      if msg.content[0].type == "text" and msg.content[0].text.value != ""]]. *)
Fixpoint answer_texts (response : list ThreadMessage) : PyExn + list string :=
  match response with
  | [] => inr []
  | msg :: rest =>
      match content msg with
      | [] => inl IndexError
      | part :: _ =>
          try texts <- answer_texts rest in
          if String.eqb (part_type part) "text" && negb (Str.is_empty (text_value part))
          then inr (text_value part :: texts)
          else inr texts
      end
  end.

(** [OpenAIManager.answer]; a thread key of [None] cannot happen after
    [get_session_thread_key] has returned. *)
Definition answer (fuel : nat) (user_query : string) (slack_user slack_channel : option string)
    (w : World E) : Outcome (World E) string :=
  bind (lift (get_session_thread_key slack_user slack_channel) w) (fun thread_key w1 =>
    match thread_key with
    | None => Raise TypeError w1
    | Some key =>
        bind (send_message fuel user_query key w1) (fun response w2 =>
          bind (lift (answer_texts response) w2) (fun texts w3 =>
            Ret (Str.join "," texts) w3))
    end).

(** [w'] differs from [w] by service progress and by calls of
    [submit_tool_outputs] that carry one output each. *)
Definition only_submits (w w' : World E) : Prop :=
  _threads w' = _threads w /\
  _assistant w' = _assistant w /\
  exists new,
    submitted w' = submitted w ++ new /\
    Forall (fun outputs : list ToolOutput => length outputs = 1%nat) new.

End Agent.

(** The text that the comprehension of [answer] takes from a message. *)
Definition text_of (msg : ThreadMessage) : option string :=
  match content msg with
  | [] => None
  | part :: _ =>
      if String.eqb (part_type part) "text" && negb (Str.is_empty (text_value part))
      then Some (text_value part)
      else None
  end.

(** Whether a tool name is one of the two that the dispatcher knows. *)
Definition known_tool (name : string) : bool :=
  String.eqb name "search_confluence" || String.eqb name "load_confluence_page".

Definition is_object (v : JSON) : bool :=
  match v with
  | JObj _ => true
  | _ => false
  end.

(** *** Tool schemas ([type_to_json_type], [generate_json_schema]) *)

(** A parameter annotation: one of the six builtin types that the agent
    tells apart, or anything else. *)
Inductive TypeHint : Type :=
| hint_int
| hint_float
| hint_bool
| hint_str
| hint_list
| hint_dict
| hint_other (repr : string).

(** A parameter of a signature; [None] stands for [inspect.Parameter.empty]. *)
Record Param : Type := {
  param_name : string;
  annotation : option TypeHint;
  param_default : option JSON
}.

(** [OpenAIAgent.type_to_json_type] *)
Definition type_to_json_type (type_hint : TypeHint) : string :=
  match type_hint with
  | hint_int => "integer"
  | hint_float => "number"
  | hint_bool => "boolean"
  | hint_str => "string"
  | hint_list => "array"
  | hint_dict => "object"
  | hint_other _ => "string"
  end.

(** The dictionary [{"type": ..., "default": ...}] of one parameter; the
    second key is there only when the parameter has a default. *)
Record ParamSchema : Type := {
  schema_type : string;
  schema_default : option JSON
}.

(** The dictionary [{"type": "object", "properties": {...}, "required": [...]}];
    [properties] lists the items in insertion order. *)
Record Schema : Type := {
  object_type : string;
  properties : list (string * ParamSchema);
  required : list string
}.

(** [d[key] = value] on a dictionary given by its items. *)
Fixpoint dict_set {V} (key : string) (value : V) (d : list (string * V)) : list (string * V) :=
  match d with
  | [] => [(key, value)]
  | (k, v) :: rest =>
      if String.eqb k key then (k, value) :: rest
      else (k, v) :: dict_set key value rest
  end.

(** The body of the loop of [generate_json_schema]. *)
Definition add_parameter (schema : Schema) (param : Param) : Schema :=
  let type_hint :=
    match annotation param with
    | Some a => type_to_json_type a
    | None => "string"
    end in
  let param_schema :=
    {| schema_type := type_hint; schema_default := param_default param |} in
  {| object_type := object_type schema;
     properties := dict_set (param_name param) param_schema (properties schema);
     required :=
       match param_default param with
       | Some _ => required schema
       | None => required schema ++ [param_name param]
       end |}.

(** [OpenAIAgent.generate_json_schema], on the parameters of the signature. *)
Definition generate_json_schema (signature : list Param) : Schema :=
  fold_left add_parameter signature
    {| object_type := "object"; properties := []; required := [] |}.

Definition has_default (p : Param) : bool :=
  match param_default p with
  | Some _ => true
  | None => false
  end.

(** The entry that a parameter gets in [properties]. *)
Definition property_of (p : Param) : string * ParamSchema :=
  (param_name p,
   {| schema_type :=
        match annotation p with
        | Some a => type_to_json_type a
        | None => "string"
        end;
      schema_default := param_default p |}).

Definition json_type_names : list string :=
  ["integer"; "number"; "boolean"; "string"; "array"; "object"].

(** *** The superseded path ([answer_old], [convert_to_cql], [formulate_answer]) *)

(** Truth value of a value. *)
Definition py_truthy (v : JSON) : bool :=
  match v with
  | JNull => false
  | JBool b => b
  | JNum z => negb (z =? 0)
  | JStr s => negb (Str.is_empty s)
  | JArr items => match items with [] => false | _ => true end
  | JObj fields => match fields with [] => false | _ => true end
  end.

Fixpoint chars (s : string) : list JSON :=
  match s with
  | EmptyString => []
  | String c r => JStr (String c EmptyString) :: chars r
  end.

(** [for x in v]: the items of a list, the keys of a dictionary, the
    characters of a string; other values are not iterable. *)
Definition py_iter (v : JSON) : PyExn + list JSON :=
  match v with
  | JArr items => inr items
  | JObj fields => inr ((fun kv => JStr kv.1) <$> fields)
  | JStr s => inr (chars s)
  | _ => inl TypeError
  end.

(** [self.send_openai_message_await_responses(...)]: [OpenAIManager] defines
    no attribute of that name, so the lookup raises before any call. *)
Definition send_openai_message_await_responses (message : string)
    (thread_key : option string)
    : PyExn + list ThreadMessage :=
  inl AttributeError.

Section Legacy.

Context (E : Env).

(** [str(v)], used by the f-strings. *)
Context (py_str : JSON -> string).

Context (confluence_base_url : string).

(** The f-string of [convert_to_cql] is the prompt. *)
Context (cql_prompt : string -> string).

(** The f-string of [formulate_answer], from the question and
    [result["results"]]. *)
Context (answer_prompt : string -> JSON -> string).

(** [OpenAIManager.convert_to_cql] *)
Definition convert_to_cql (user_query : string) (thread_key : option string)
    : PyExn + string :=
  let user_query := cql_prompt user_query in
  try cql_queries <- send_openai_message_await_responses user_query thread_key in
  try texts <-
    map_raise
      (fun query : ThreadMessage =>
         match content query with
         | [] => inl IndexError
         | part :: _ => inr ("(" +:+ text_value part +:+ ")")
         end) cql_queries in
  inr (Str.join " OR " texts).

(** The loop of [formulate_answer] over the results. *)
Fixpoint formulate_answer_loop (user_query : string) (thread_key : option string)
    (results : list JSON)
    : PyExn + string :=
  match results with
  | [] =>
      inr "I found some information, but nothing that directly answers your question. Please check the search results on Confluence."
  | result :: rest =>
      try context <- py_getitem result "results" in
      let ai_query := answer_prompt user_query context in
      try answers <- send_openai_message_await_responses ai_query thread_key in
      match answers with
      | [] => formulate_answer_loop user_query thread_key rest
      | answer :: _ =>
          try page_id <- py_getitem result "id" in
          try title <- py_getitem result "title" in
          try expandable <- py_getitem result "_expandable" in
          try space <- py_getitem expandable "space" in
          let url :=
            confluence_base_url +:+ "/wiki/spaces/" +:+ py_str space
            +:+ "/pages/" +:+ py_str page_id in
          inr ("I found some information that might help you: *" +:+ py_str title
               +:+ "* <" +:+ url +:+ "|View on Confluence>")
      end
  end.

(** [OpenAIManager.formulate_answer] *)
Definition formulate_answer (user_query : string) (results : JSON)
    (thread_key : option string)
    : PyExn + string :=
  if negb (py_truthy results)
  then inr "I couldn't find any information related to your query."
  else
    try items <- py_iter results in
    formulate_answer_loop user_query thread_key items.

(** [OpenAIManager.answer_old] *)
Definition answer_old (user_query : string) (slack_user slack_channel : option string)
    : PyExn + string :=
  try thread_key <- get_session_thread_key slack_user slack_channel in
  try cql_query <- convert_to_cql user_query thread_key in
  try results <- confluence_cql E (JStr cql_query) 5 in
  formulate_answer user_query results thread_key.

End Legacy.

End Agent.

(** ** The retry supervisor and the document fan-out ([managers/aichat.py]) *)

Module AIChat.

(** The [cql_output] schema, as the dictionary the chat client returns. *)
Record cql_output : Type := {
  cql : option (list string);
  failure : option string;
  thoughts : option string;
  keywords : option string;
  synonyms : option string;
  answer : option string;
  warning : option string
}.

(** The [answer_output] schema. *)
Record answer_output : Type := {
  a_failure : option string;
  a_thoughts : option string;
  a_keywords : option string;
  a_synonyms : option string;
  a_answer : option string;
  a_warning : option string
}.

(** One item of [results["results"]]; only [result["content"]["id"]] is read. *)
Record SearchResult : Type := {
  content_id : string
}.

(** A page as [get_page_by_id] returns it; the code reads
    [["body"]["view"]["value"]] and [["_links"]["webui"]]. *)
Record Page : Type := {
  body_view_value : string;
  links_webui : string
}.

(** An [AIChatManager] instance. *)
Record AIChatManager : Type := {
  user_query : string;
  system_prompt : string
}.

(** What the manager calls and does not define. [ask_cql history system prompt]
    is the model's reply to a Formulating prompt, given the Formulating
    prompts sent before it; [ask_answer system prompt] is its reply to a chunk
    prompt (the pool sends these in no fixed order, so the reply is a function
    of the prompt alone). *)
Record Env : Type := {
  environ : gmap string string;
  ask_cql : list string -> string -> string -> cql_output;
  ask_answer : string -> string -> answer_output;
  confluence_cql : string -> Z -> PyExn + list SearchResult;
  get_page_by_id : string -> string -> PyExn + Page
}.

(** A reference to a Python list object. *)
Definition loc : Type := positive.

(** The list bound to the default value of [failed_cql]: one object, created
    when the [def] statement runs, shared by every call that omits the
    argument. *)
Definition failed_cql_default : loc := 1%positive.

(** The list objects, the Formulating prompts sent so far and the CQL
    queries run so far (both oldest first). *)
Record World : Type := {
  heap : gmap loc (list string);
  prompts : list string;
  queries : list string
}.

Definition apology : string :=
  "I'm sorry, I am unable to answer your request. Please paraphrase your question. What information do you seek?".

(** Truth value of an [Optional[str]] bound by [:=]. *)
Definition truthy (o : option string) : option string :=
  match o with
  | Some s => if Str.is_empty s then None else Some s
  | None => None
  end.

(** Truth value of an [Optional[List[str]]]. *)
Definition truthy_list (o : option (list string)) : option (list string) :=
  match o with
  | Some [] => None
  | Some l => Some l
  | None => None
  end.

Definition indent8 : string := "        ".
Definition indent12 : string := "            ".
Definition indent16 : string := "                ".

(** The f-string that opens [generate_response]. *)
Definition base_prompt (self : AIChatManager) : string :=
  Str.join Str.newline [
    "";
    indent8 +:+ "Ponder the user query below very carefully to identify keywords, remove useless information like the company name, and generate effective, efficient CQL queries.";
    indent8 +:+ "Consider synonyms, categories, alternative meanings, and other possibilities.";
    indent8 +:+ "For example, if the user asks about databases, you might not find the word 'databases' but may want to search for common types of databases like 'MySQL', 'Postgresql' or 'MsSQL'.";
    indent8 +:+ "The CQL queries should search the text and titles use all reasonable permutations of OR, and AND, and parentheses to mimimize API calls.";
    indent8 +:+ "Think step by step. We only get one shot at this, so make it count. If the user query is not a valid question, respond as your system message mandates.";
    indent8;
    indent8 +:+ "USER QUERY: ";
    indent8 +:+ user_query self;
    indent8 ].

Definition forbidden_header : string :=
  Str.join Str.newline [
    "";
    indent16 +:+ "FORBIDDEN QUERIES: ";
    indent16 +:+ "The following CQL queries returned no results. Do not use them:";
    indent16 ].

(** The text appended under [if failed_cql:]. *)
Definition forbidden_section (failed : list string) : string :=
  forbidden_header +:+ Str.join (Str.newline +:+ "- ") failed.

(** The Formulating prompt for a given content of [failed_cql]
    ([None] when the argument is [None]). *)
Definition formulating_prompt (self : AIChatManager) (failed : option (list string)) : string :=
  match failed with
  | Some (f :: fs) => base_prompt self +:+ forbidden_section (f :: fs)
  | _ => base_prompt self
  end.

(** The f-string of [process_chunk]. *)
Definition chunk_prompt (self : AIChatManager) (chunk : string) : string :=
  Str.join Str.newline [
    "";
    indent12 +:+ "Answer the following question: " +:+ user_query self +:+ ", using only the context provided at the end of this message.";
    indent12 +:+ "If there is no answer, respond with 'failure: I'm sorry, inadequate info.'.";
    indent12 +:+ "Do not include the question in your response. Use only the context above to answer the question.";
    indent12;
    indent12 +:+ "Context:";
    indent12 +:+ chunk;
    indent12;
    indent8 ].

(** What one Formulating cycle decides. *)
Inductive Formulated : Type :=
| Apologise
| Answered (a : string)
| Search (fragments : list string).

(** The query built from the fragments: each in parentheses, joined by OR. *)
Definition query_of (fragments : list string) : string :=
  Str.join " OR " ((fun c => "(" +:+ c +:+ ")") <$> fragments).

Section AIChat.

Context (E : Env).

(** [AIChatManager.process_chunk]: the answer when it is truthy, else [None]. *)
Definition process_chunk (self : AIChatManager) (chunk : string) : option string :=
  let ai_response := ask_answer E (system_prompt self) (chunk_prompt self chunk) in
  truthy (a_answer ai_response).

(** [AIChatManager.process_result] *)
Definition process_result (self : AIChatManager) (result : SearchResult)
    : PyExn + option string :=
  try expanded_result <- get_page_by_id E (content_id result) "body.view" in
  let content_body := body_view_value expanded_result in
  let content_body := Chunker.strip_tags content_body in
  try chunks <- Chunker.chunks (Chunker.CONTEXT_LIMIT (environ E)) content_body in
  let answers := omap (process_chunk self) chunks in
  let answers :=
    (fun answer =>
       "Page ID" +:+ content_id result +:+ ": " +:+ answer +:+ ", Refs: "
       +:+ links_webui expanded_result) <$> answers in
  match answers with
  | [] => inr None
  | _ :: _ => inr (Some (Str.join Str.newline answers))
  end.

(** [AIChatManager.process_query]; [executor.map] yields in input order. *)
Definition process_query (self : AIChatManager) (query : string) : PyExn + string :=
  try results <- confluence_cql E query 5 in
  try answers <- map_raise (process_result self) results in
  let answers := omap id answers in
  inr (Str.join Str.newline answers).

Definition log_prompt (p : string) (w : World) : World :=
  {| heap := heap w; prompts := prompts w ++ [p]; queries := queries w |}.

Definition log_query (q : string) (w : World) : World :=
  {| heap := heap w; prompts := prompts w; queries := queries w ++ [q] |}.

(** [failed_cql.extend(cql)] on the list object at [l]. *)
Definition extend (l : loc) (items : list string) (w : World) : World :=
  {| heap := <[l := (heap w !!! l) ++ items]> (heap w);
     prompts := prompts w; queries := queries w |}.

(** [AIChatManager.generate_response]. [failed_cql] is a reference to a list
    object or [None]; one unit of fuel pays for one call. *)
Fixpoint generate_response (fuel : nat) (self : AIChatManager)
    (failed_cql : option loc) (failure_count : Z) (w : World) : Outcome World string :=
  match fuel with
  | O => OutOfFuel
  | S fuel' =>
      let user_query :=
        formulating_prompt self ((fun l => heap w !!! l) <$> failed_cql) in
      let ai_response := ask_cql E (prompts w) (system_prompt self) user_query in
      let w := log_prompt user_query w in
      match truthy (warning ai_response) with
      | Some _ => Ret apology w
      | None =>
      match truthy (failure ai_response) with
      | Some _ => Ret apology w
      | None =>
      match truthy (answer ai_response) with
      | Some answer => Ret answer w
      | None =>
      match truthy_list (cql ai_response) with
      | Some cql =>
          let query := Str.join " OR " ((fun c => "(" +:+ c +:+ ")") <$> cql) in
          let w := log_query query w in
          match process_query self query with
          | inl e => Raise e w
          | inr response =>
              if Str.is_empty response then
                let failure_count := failure_count + 1 in
                match failed_cql with
                | None => Raise AttributeError w
                | Some l =>
                    let w := extend l cql w in
                    if failure_count <? 2 then
                      bind (generate_response fuel' self failed_cql failure_count w)
                        (fun response w => Ret apology w)
                    else Ret apology w
                end
              else Ret response w
          end
      | None => Ret apology w
      end end end end
  end.

(** *** Views of a cycle, used to state the properties *)

(** The decision taken on the assistant's reply to the Formulating prompt,
    given the prompts sent before and the content of [failed_cql]. *)
Definition formulate (self : AIChatManager) (history failed : list string) : Formulated :=
  let r := ask_cql E history (system_prompt self) (formulating_prompt self (Some failed)) in
  match truthy (warning r) with
  | Some _ => Apologise
  | None =>
      match truthy (failure r) with
      | Some _ => Apologise
      | None =>
          match truthy (answer r) with
          | Some a => Answered a
          | None =>
              match truthy_list (cql r) with
              | Some c => Search c
              | None => Apologise
              end
          end
      end
  end.

(** A Searching cycle that comes back empty-handed. *)
Definition missed (self : AIChatManager) (history failed fragments : list string) : Prop :=
  formulate self history failed = Search fragments /\
  process_query self (query_of fragments) = inr EmptyString.

(** The call made with [failure_count = 1]: it cannot call itself again. *)
Definition last_cycle (self : AIChatManager) (l : loc) (w : World) : Outcome World string :=
  let w1 := log_prompt (formulating_prompt self (Some (heap w !!! l))) w in
  match formulate self (prompts w) (heap w !!! l) with
  | Apologise => Ret apology w1
  | Answered a => Ret a w1
  | Search c =>
      let w2 := log_query (query_of c) w1 in
      match process_query self (query_of c) with
      | inl e => Raise e w2
      | inr response =>
          if Str.is_empty response then Ret apology (extend l c w2)
          else Ret response w2
      end
  end.

(** The Formulating prompt of a call entered in world [w]. *)
Definition cycle_prompt (self : AIChatManager) (failed_cql : option loc) (w : World) : string :=
  formulating_prompt self ((fun l => heap w !!! l) <$> failed_cql).

(** The assistant's reply to that prompt. *)
Definition reply (self : AIChatManager) (failed_cql : option loc) (w : World) : cql_output :=
  ask_cql E (prompts w) (system_prompt self) (cycle_prompt self failed_cql w).

(** The call [generate_response()]: both arguments take their defaults, and
    [failed_cql] is bound to the one default list object. *)
Definition generate_response_default (fuel : nat) (self : AIChatManager) (w : World)
    : Outcome World string :=
  generate_response fuel self (Some failed_cql_default) 0 w.

End AIChat.

End AIChat.

(** ** The Slack front end ([slack_bot.py]) *)

Module SlackBot.

(** [c.lower()] for a character with a code point below 256: the ASCII
    capitals and the Latin-1 capitals (all of U+00C0..U+00DE but the
    multiplication sign) move 32 up, the rest stays. *)
Definition lower_char (c : ascii) : ascii :=
  let n := nat_of_ascii c in
  if ((65 <=? n) && (n <=? 90))%nat then ascii_of_nat (n + 32)
  else if ((192 <=? n) && (n <=? 222) && negb (n =? 215))%nat then ascii_of_nat (n + 32)
  else c.

(** [s.lower()] *)
Fixpoint lower (s : string) : string :=
  match s with
  | EmptyString => EmptyString
  | String c r => String (lower_char c) (lower r)
  end.

(** [needle in hay] for two strings. *)
Fixpoint contains (needle hay : string) : bool :=
  if String.prefix needle hay then true
  else
    match hay with
    | EmptyString => false
    | String _ r => contains needle r
    end.

(** The keys of [body["event"]] that the bot reads; [None] is a missing key. *)
Record Event : Type := {
  ev_type : option string;
  channel_type : option string;
  thread_ts : option string;
  channel : option string;
  user : option string;
  text : option string;
  subtype : option string
}.

(** A message of a thread's history. *)
Record Message : Type := {
  msg_bot_id : option string;
  msg_text : option string
}.

(** What [get_my_info()] returns (and caches): the [auth.test] data. *)
Record BotInfo : Type := {
  bot_id : option string;
  info_user : option string
}.

(** [str(x)] for an optional string. *)
Definition str_of (x : option string) : string :=
  match x with
  | Some s => s
  | None => "None"
  end.

(** [f"<@{get_my_info().get('user')}>"] *)
Definition mention (info : BotInfo) : string :=
  "<@" +:+ str_of (info_user info) +:+ ">".

(** [a == b] on optional strings. *)
Definition eq_opt (a b : option string) : bool :=
  match a, b with
  | Some x, Some y => String.eqb x y
  | None, None => true
  | _, _ => false
  end.

Section Bot.

(** The bot's identity and the Slack client's [conversations.replies]
    (the messages of its data). *)
Context (info : BotInfo).
Context (conversations_replies : string -> string -> PyExn + list Message).

(** The loop of [speaking_to_me] over [enumerate(messages)]; [len] is
    [len(messages)]. *)
Fixpoint thread_loop (len : Z) (message_index : Z) (messages : list Message)
    (my_thread : bool) : bool :=
  match messages with
  | [] => my_thread
  | message :: rest =>
      let my_thread :=
        if eq_opt (msg_bot_id message) (bot_id info) then
          if message_index <? len - 1 then true else false
        else my_thread in
      let my_thread :=
        if contains (mention info) (lower (default EmptyString (msg_text message)))
        then true else my_thread in
      thread_loop len (message_index + 1) rest my_thread
  end.

(** [speaking_to_me(body)]; [body] is [None] when it has no ["event"]. *)
Definition speaking_to_me (body : option Event) : PyExn + bool :=
  try event <- (match body with Some e => inr e | None => inl KeyError end) in
  try app_mention <-
    (match ev_type event with
     | Some t => inr (contains "app_mention" t)
     | None => inl TypeError
     end) in
  let im := eq_opt (channel_type event) (Some "im") in
  let my_thread := false in
  try my_thread <-
    (match thread_ts event with
     | Some ts =>
         try ch <- (match channel event with Some c => inr c | None => inl KeyError end) in
         try messages <- conversations_replies ch ts in
         inr (thread_loop (Z.of_nat (length messages)) 0 messages my_thread)
     | None => inr my_thread
     end) in
  inr (app_mention || im || my_thread).

End Bot.

(** Whether a message is the bot's own, as the loop tests it. *)
Definition mine (info : BotInfo) (m : Message) : bool :=
  eq_opt (msg_bot_id m) (bot_id info).

(** Whether some character of [s] is changed by [lower]. *)
Fixpoint has_capital (s : string) : bool :=
  match s with
  | EmptyString => false
  | String c r => negb (Ascii.eqb (lower_char c) c) || has_capital r
  end.

End SlackBot.

(** ** Observing an outcome *)

Definition returned {W A} (o : Outcome W A) : option A :=
  match o with
  | Ret a _ => Some a
  | _ => None
  end.

Definition raised {W A} (o : Outcome W A) : option PyExn :=
  match o with
  | Raise e _ => Some e
  | _ => None
  end.

Definition final_world {W A} (o : Outcome W A) : option W :=
  match o with
  | Ret _ w => Some w
  | Raise _ w => Some w
  | OutOfFuel => None
  end.

(** ** Concrete services, used to run the model *)

Module AgentScenario.

Import Agent.

(** A scripted assistant service: [script] lists the run objects that the
    successive [retrieve] calls see (the last one repeats); the assistant's
    [replies] are appended to the chronological [thread] when a poll first
    shows the run completed; [newest_first] is the order in which
    [messages.list] presents the thread. *)
Record Service : Type := {
  script : list Run;
  thread : list ThreadMessage;
  replies : list ThreadMessage;
  next_id : string;
  newest_first : bool
}.

Definition text_message (id text : string) : ThreadMessage :=
  {| message_id := id; content := [ {| part_type := "text"; text_value := text |} ] |}.

Definition deliver (r : Run) (s : Service) : Service :=
  if String.eqb (status r) "completed" then
    {| script := script s; thread := thread s ++ replies s; replies := [];
       next_id := next_id s; newest_first := newest_first s |}
  else s.

Definition idle_run : Run :=
  {| run_id := "run_1"; status := "queued"; required_action := None |}.

Definition scripted_retrieve (s : Service) : Run * Service :=
  match script s with
  | [] => (idle_run, s)
  | [r] => (r, deliver r s)
  | r :: rest =>
      (r, deliver r {| script := rest; thread := thread s; replies := replies s;
                       next_id := next_id s; newest_first := newest_first s |})
  end.

Definition post (content : string) (s : Service) : ThreadMessage * Service :=
  let m := text_message (next_id s) content in
  (m, {| script := script s; thread := thread s ++ [m]; replies := replies s;
         next_id := next_id s +:+ "'"; newest_first := newest_first s |}).

Definition quote : string := String (ascii_of_nat 34) EmptyString.

(** The arguments [{"cql_query": "text ~ api"}], as the assistant sends them. *)
Definition search_arguments : string :=
  "{" +:+ quote +:+ "cql_query" +:+ quote +:+ ": "
      +:+ quote +:+ "text ~ api" +:+ quote +:+ "}".

(** A [json.loads] that knows this one document and rejects anything else. *)
Definition loads (s : string) : PyExn + JSON :=
  if String.eqb s search_arguments
  then inr (JObj [("cql_query", JStr "text ~ api")])
  else inl JSONDecodeError.

(** A [json.dumps] that only tells the kinds of value apart. *)
Definition dumps (v : JSON) : string :=
  match v with
  | JObj _ => "{..}"
  | JArr _ => "[..]"
  | JStr s => s
  | _ => "null"
  end.

Definition env : Env :=
  {| Svc := Service;
     threads_create := fun s => ("thread_1", s);
     assistants_create := fun s => ("asst_1", s);
     messages_create := fun _ content s => post content s;
     messages_list := fun _ s => if newest_first s then reverse (thread s) else thread s;
     runs_create := fun _ _ s => (idle_run, s);
     runs_retrieve := fun _ _ s => scripted_retrieve s;
     runs_submit_tool_outputs := fun _ _ _ s => (idle_run, s);
     json_loads := loads;
     json_dumps := dumps;
     confluence_cql := fun _ _ => inr (JObj [("size", JNum 0); ("results", JArr [])]);
     confluence_get_page_by_id := fun _ _ => inl (ExternalError "page not found") |}.

Definition start (s : Service) : World env :=
  {| svc := (s : Svc env); _threads := ∅; _assistant := None; submitted := [] |}.

Definition run_with (st : string) (action : option RequiredAction) : Run :=
  {| run_id := "run_1"; status := st; required_action := action |}.

Definition call_1 : ToolCall :=
  {| call_id := "call_1"; function_name := "search_confluence";
     function_arguments := search_arguments |}.

Definition call_2 : ToolCall :=
  {| call_id := "call_2"; function_name := "search_confluence";
     function_arguments := search_arguments |}.


Definition submit_action (calls : list ToolCall) : option RequiredAction :=
  Some {| action_type := "submit_tool_outputs"; tool_calls := calls |}.

Definition service (runs : list Run) : Service :=
  {| script := runs; thread := []; replies := []; next_id := "msg_1";
     newest_first := true |}.

(** One run step with two pending tool calls, after which the run completes. *)
Definition two_calls : Service :=
  service [run_with "requires_action" (submit_action [call_1; call_2]);
           run_with "completed" None].



(** [bad_arguments] once its first poll has been answered. *)
Definition after_first_poll : Service := service [run_with "completed" None].

Definition earlier_question : ThreadMessage := text_message "msg_a" "Where is the wiki?".
Definition earlier_answer : ThreadMessage := text_message "msg_b" "At /wiki.".
Definition reply_1 : ThreadMessage := text_message "msg_c" "Searching.".
Definition reply_2 : ThreadMessage := text_message "msg_d" "The URL is /api.".

(** A thread with one earlier exchange; the assistant answers the new
    question with two messages, [reply_1] and then [reply_2]. *)
Definition two_replies (order : bool) : Service :=
  {| script := [run_with "completed" None];
     thread := [earlier_question; earlier_answer];
     replies := [reply_1; reply_2];
     next_id := "msg_1";
     newest_first := order |}.

(** The same thread; the assistant answers with the single message
    [reply_2] and calls no tool. *)
Definition one_reply : Service :=
  {| script := [run_with "completed" None];
     thread := [earlier_question; earlier_answer];
     replies := [reply_2];
     next_id := "msg_1";
     newest_first := true |}.

(** A pending call to a tool that the agent does not know. *)
Definition other_call : ToolCall :=
  {| call_id := "call_4"; function_name := "get_weather";
     function_arguments := "{cql_query" |}.

(** A [search_confluence] call whose arguments are the JSON list [[]]. *)
Definition list_call : ToolCall :=
  {| call_id := "call_5"; function_name := "search_confluence";
     function_arguments := "[]" |}.

(** The scripted service, with a [json.loads] that also knows [[]] and a
    Confluence client that answers every search with [found]. *)
Definition env_finding (found : JSON) : Env :=
  {| Svc := Service;
     threads_create := threads_create env;
     assistants_create := assistants_create env;
     messages_create := messages_create env;
     messages_list := messages_list env;
     runs_create := runs_create env;
     runs_retrieve := runs_retrieve env;
     runs_submit_tool_outputs := runs_submit_tool_outputs env;
     json_loads := fun s => if String.eqb s "[]" then inr (JArr []) else loads s;
     json_dumps := dumps;
     confluence_cql := fun _ _ => inr found;
     confluence_get_page_by_id := confluence_get_page_by_id env |}.

(** A message that has no content part. *)
Definition hollow : ThreadMessage := {| message_id := "msg_e"; content := [] |}.

End AgentScenario.

Module AIChatScenario.

Import AIChat.

Definition says_cql (fragments : list string) : cql_output :=
  {| cql := Some fragments; failure := None; thoughts := None; keywords := None;
     synonyms := None; answer := None; warning := None |}.

Definition says_answer (a : string) : answer_output :=
  {| a_failure := None; a_thoughts := None; a_keywords := None;
     a_synonyms := None; a_answer := Some a; a_warning := None |}.

Definition api_page : Page :=
  {| body_view_value := "<p>The URL is <b>/api</b></p>"; links_webui := "/wiki/42" |}.

(** The store holds one page, found by [text ~ api] only; the assistant first
    proposes a title search and, asked again, a text search. *)
Definition second_try : Env :=
  {| environ := ∅;
     ask_cql := fun history _ _ =>
       match history with
       | [] => says_cql ["title ~ api"]
       | _ => says_cql ["text ~ api"]
       end;
     ask_answer := fun _ _ => says_answer "/api";
     confluence_cql := fun query _ =>
       if String.eqb query "(text ~ api)" then inr [ {| content_id := "42" |} ] else inr [];
     get_page_by_id := fun _ _ => inr api_page |}.

(** The store holds nothing; the assistant proposes the same fragment
    whatever it is told. *)
Definition stubborn : Env :=
  {| environ := ∅;
     ask_cql := fun _ _ _ => says_cql ["title ~ api"];
     ask_answer := fun _ _ => says_answer "/api";
     confluence_cql := fun _ _ => inr [];
     get_page_by_id := fun _ _ => inr api_page |}.

Definition manager : AIChatManager :=
  {| user_query := "What is the API documentation URL?"; system_prompt := "" |}.

Definition fresh : World := {| heap := ∅; prompts := []; queries := [] |}.

(** The world in which the first call of [second_try] calls itself: one
    prompt sent, one query run, its fragment in the default list. *)
Definition after_first_miss : World :=
  {| heap := <[failed_cql_default := ["title ~ api"]]> ∅;
     prompts := [formulating_prompt manager (Some [])];
     queries := ["(title ~ api)"] |}.

(** The assistant hedges: a warning, and an answer and fragments as well. *)
Definition hedging : Env :=
  {| environ := ∅;
     ask_cql := fun _ _ _ =>
       {| cql := Some ["title ~ api"]; failure := None; thoughts := None;
          keywords := None; synonyms := None; answer := Some "/api";
          warning := Some "not a question" |};
     ask_answer := fun _ _ => says_answer "/api";
     confluence_cql := fun _ _ => inr [ {| content_id := "42" |} ];
     get_page_by_id := fun _ _ => inr api_page |}.

(** The assistant answers at once. *)
Definition direct : Env :=
  {| environ := ∅;
     ask_cql := fun _ _ _ =>
       {| cql := None; failure := None; thoughts := None;
          keywords := None; synonyms := None; answer := Some "/api";
          warning := None |};
     ask_answer := fun _ _ => says_answer "/api";
     confluence_cql := fun _ _ => inr [];
     get_page_by_id := fun _ _ => inr api_page |}.

(** The one page of the store has tags and no text. *)
Definition markup_only : Env :=
  {| environ := ∅;
     ask_cql := fun _ _ _ => says_cql ["title ~ api"];
     ask_answer := fun _ _ => says_answer "/api";
     confluence_cql := fun _ _ => inr [ {| content_id := "42" |} ];
     get_page_by_id := fun _ _ =>
       inr {| body_view_value := "<p><b></b></p>"; links_webui := "/wiki/42" |} |}.
(** The deployment sets the chunk limit in its environment. *)
Definition limit_set : Env :=
  {| environ := {[ "OPENAI_MODEL_CONTEXT_LIMIT" := "100000" ]};
     ask_cql := fun _ _ _ => says_cql ["title ~ api"];
     ask_answer := fun _ _ => says_answer "/api";
     confluence_cql := fun _ _ => inr [ {| content_id := "42" |} ];
     get_page_by_id := fun _ _ => inr api_page |}.

End AIChatScenario.

Module SlackScenario.
Import SlackBot.

Definition me : BotInfo := {| bot_id := Some "B01"; info_user := Some "U01UJ9ZLZ9Z" |}.

Definition from_bot (t : string) : Message := {| msg_bot_id := Some "B01"; msg_text := Some t |}.
Definition from_user (t : string) : Message := {| msg_bot_id := None; msg_text := Some t |}.

(** A thread in which the bot answered and a user, naming the bot, came back. *)
Definition follow_up : list Message :=
  [from_user "Where is the wiki?"; from_bot "At /wiki.";
   from_user "<@U01UJ9ZLZ9Z> and the API?"].

Definition history (ch ts : string) : PyExn + list Message := inr follow_up.

Definition in_thread : Event :=
  {| ev_type := Some "message"; channel_type := Some "channel";
     thread_ts := Some "1700000000.000100"; channel := Some "C01";
     user := Some "U02"; text := Some "<@U01UJ9ZLZ9Z> and the API?";
     subtype := None |}.

End SlackScenario.

(** * Properties *)

(** ** Strings and slices *)

Module StrFacts.

Import Str.

Lemma append_cons c x y : String c x +:+ y = String c (x +:+ y).
Proof. reflexivity. Qed.

Lemma take_drop_cat n s : take n s +:+ drop n s = s.
Proof.
  revert s. induction n as [|n IH]; intros [|c s]; simpl; try reflexivity.
  by rewrite append_cons, IH.
Qed.

Lemma drop_empty n : drop n EmptyString = EmptyString.
Proof. by destruct n. Qed.

Lemma take_empty n : take n EmptyString = EmptyString.
Proof. by destruct n. Qed.


Lemma length_drop n s : String.length (drop n s) = (String.length s - n)%nat.
Proof.
  revert s. induction n as [|n IH]; intros [|c s]; simpl; try reflexivity.
  by rewrite IH.
Qed.

Lemma take_all n s : (String.length s <= n)%nat -> take n s = s.
Proof.
  revert s. induction n as [|n IH]; intros [|c s]; simpl; try reflexivity.
  - lia.
  - intros H. rewrite IH; [done | lia].
Qed.

Lemma drop_all n s : (String.length s <= n)%nat -> drop n s = EmptyString.
Proof.
  revert s. induction n as [|n IH]; intros [|c s]; simpl; try reflexivity.
  - lia.
  - intros H. apply IH. lia.
Qed.

Lemma drop_drop n m s : drop m (drop n s) = drop (n + m) s.
Proof.
  revert s. induction n as [|n IH]; intros s; simpl; [done|].
  destruct s as [|c s]; [by rewrite drop_empty | apply IH].
Qed.




Lemma append_assoc a b c : (a +:+ b) +:+ c = a +:+ (b +:+ c).
Proof. induction a as [|x a IH]; [done|]. by rewrite !append_cons, IH. Qed.


(** Between bounds that are not negative, a slice is a [take] of a [drop]. *)
Lemma slice_nonneg s i j :
  0 <= i <= j ->
  slice s i j = take (Z.to_nat (j - i)) (drop (Z.to_nat i) s).
Proof.
  intros Hij. unfold slice, clamp, len.
  destruct (Z.ltb_spec i 0) as [?|_]; [lia|].
  destruct (Z.ltb_spec j 0) as [?|_]; [lia|].
  destruct (Z.le_gt_cases (Z.of_nat (String.length s)) i) as [Hge|Hlt].
  - rewrite !(drop_all _ s) by lia. by rewrite !take_empty.
  - replace (i `min` Z.of_nat (String.length s)) with i by lia.
    destruct (Z.le_gt_cases j (Z.of_nat (String.length s))) as [Hj|Hj].
    + by replace (j `min` Z.of_nat (String.length s)) with j by lia.
    + replace (j `min` Z.of_nat (String.length s))
        with (Z.of_nat (String.length s)) by lia.
      rewrite !take_all; [done | |]; rewrite length_drop; lia.
Qed.

End StrFacts.

(** ** The chunker and the markup stripper *)

Module ChunkerSpec.

Import Str StrFacts Chunker.

Lemma chunks_unfold limit text :
  0 < limit ->
  chunks (PyInt limit) text
  = inr (chunk_at (Z.to_nat limit) text <$> seq 0 (count limit (len text))).
Proof.
  intros Hpos. unfold chunks, py_range, count.
  destruct (Z.eqb_spec limit 0) as [?|_]; [lia|].
  destruct (Z.ltb_spec 0 limit) as [_|?]; [|lia].
  f_equal. rewrite <- list_fmap_compose.
  apply list_fmap_ext. intros _ k _. simpl. unfold chunk_at.
  rewrite slice_nonneg by lia. f_equal; [f_equal; lia|]. f_equal. lia.
Qed.





(** The limit is the integer 100000 unless the environment sets it; a value
    taken from the environment is a [str], and the comprehension then fails
    on [range]. *)
Lemma CONTEXT_LIMIT_default : CONTEXT_LIMIT ∅ = PyInt 100000.
Proof. reflexivity. Qed.

Lemma CONTEXT_LIMIT_from_environ (value text : string) :
  chunks (CONTEXT_LIMIT {[ "OPENAI_MODEL_CONTEXT_LIMIT" := value ]}) text = inl TypeError.
Proof.
  unfold CONTEXT_LIMIT, getenv. by rewrite lookup_singleton_eq.
Qed.




(** C9. The stripper removes the tags of the specification's example, and
    leaves in place a tag that has a line break inside it: [.] does not match
    a newline, so the pattern finds no match at that [<]. *)
Theorem strip_tags_misses_multiline_tag :
  strip_tags "<p>Hello <b>World</b></p>" = "Hello World" /\
  strip_tags ("<a" +:+ newline +:+ "href='x'>Hi</a>")
  = "<a" +:+ newline +:+ "href='x'>Hi".
Proof. split; reflexivity. Qed.

Lemma strip_tags_cons c r :
  strip_tags (String c r)
  = match match_tag (String c r) with
    | Some rest => strip_tags rest
    | None => String c (strip_tags r)
    end.
Proof.
  rewrite strip_tags_equation_2. unfold Logic.inspect.
  assert (Hgen : forall o (H : match_tag (String c r) = o),
             strip_tags_unfold_clause_2 c r (exist _ o H)
             = match o with
               | Some rest => strip_tags rest
               | None => String c (strip_tags r)
               end) by (intros [rest|] H; reflexivity).
  apply Hgen.
Qed.

Lemma match_rest_shorter s r :
  match_rest s = Some r -> (String.length r < String.length s)%nat.
Proof.
  revert r. induction s as [|c s IH]; intros r; simpl; [discriminate|].
  destruct (is_gt c).
  - intros [= ->]. lia.
  - destruct (is_newline c); [discriminate|].
    intros H. apply IH in H. lia.
Qed.

Lemma match_tag_shorter s r :
  match_tag s = Some r -> (String.length r + 2 <= String.length s)%nat.
Proof.
  destruct s as [|c s]; simpl; [discriminate|].
  destruct (is_lt c); [|discriminate].
  intros H. apply match_rest_shorter in H. lia.
Qed.

(** Induction on the length of the subject, the order in which the scan
    of [strip_tags] moves on. *)
Lemma strip_tags_ind (P : string -> Prop) :
  P EmptyString ->
  (forall c r rest, match_tag (String c r) = Some rest -> P rest -> P (String c r)) ->
  (forall c r, match_tag (String c r) = None -> P r -> P (String c r)) ->
  forall s, P s.
Proof.
  intros Hnil Hhit Hmiss s.
  remember (String.length s) as n eqn:Hn. revert s Hn.
  induction n as [n IH] using lt_wf_ind. intros [|c r] Hn; [done|].
  destruct (match_tag (String c r)) as [rest|] eqn:Hm.
  - apply (Hhit _ _ _ Hm). apply match_tag_shorter in Hm.
    apply (IH (String.length rest)); [lia | done].
  - apply (Hmiss _ _ Hm). apply (IH (String.length r)); [simpl in Hn; lia | done].
Qed.

Lemma match_rest_strip_tags r :
  match_rest r = None -> match_rest (strip_tags r) = None.
Proof.
  induction r as [|c r rest Hm IH|c r Hm IH] using strip_tags_ind; [done| |].
  - rewrite strip_tags_cons, Hm. simpl in *.
    destruct (is_lt c) eqn:Hlt; [|done].
    destruct (is_gt c) eqn:Hgt; [done|].
    destruct (is_newline c) eqn:Hnl.
    { unfold is_lt, is_newline in *.
      apply Ascii.eqb_eq in Hlt, Hnl. by subst. }
    intros Hr. by rewrite Hr in Hm.
  - rewrite strip_tags_cons, Hm. simpl.
    destruct (is_gt c); [done|]. destruct (is_newline c); [done|]. apply IH.
Qed.

Lemma strip_tags_no_match (s : string) (n : nat) :
  match_tag (drop n (strip_tags s)) = None.
Proof.
  revert n.
  induction s as [|c r rest Hm IH|c r Hm IH] using strip_tags_ind; intros n.
  - by rewrite drop_empty.
  - rewrite strip_tags_cons, Hm. apply IH.
  - rewrite strip_tags_cons, Hm. destruct n as [|n]; [|apply IH].
    simpl. simpl in Hm. destruct (is_lt c); [|done].
    by apply match_rest_strip_tags.
Qed.

(** X1. At no position of the stripped text does the pattern ["<.*?>"]
    match: every tag that opens and closes on one line is gone. *)
Theorem strip_tags_leaves_no_match (s : string) (n : nat) :
  match_tag (drop n (strip_tags s)) = None.
Proof. apply strip_tags_no_match. Qed.

Lemma strip_tags_fixed s :
  (forall n, match_tag (drop n s) = None) -> strip_tags s = s.
Proof.
  induction s as [|c r IH]; intros Hs; [done|].
  pose proof (Hs 0%nat) as H0. change (drop 0 (String c r)) with (String c r) in H0.
  rewrite strip_tags_cons, H0. f_equal. apply IH.
  intros n. apply (Hs (S n)).
Qed.

(** X2. Stripping is idempotent: a second pass finds nothing to remove. *)
Theorem strip_tags_idempotent (s : string) :
  strip_tags (strip_tags s) = strip_tags s.
Proof. apply strip_tags_fixed. apply strip_tags_no_match. Qed.

(** Stripping only removes characters: the result is never longer than
    the body it was given. *)
Lemma strip_tags_never_longer (s : string) :
  len (strip_tags s) <= len s.
Proof.
  unfold len. apply inj_le.
  induction s as [|c r rest Hm IH|c r Hm IH] using strip_tags_ind; [done| |].
  - rewrite strip_tags_cons, Hm. apply match_tag_shorter in Hm. lia.
  - rewrite strip_tags_cons, Hm. simpl. lia.
Qed.

(** X3. A body without any [<] comes back unchanged. *)
Theorem strip_tags_keeps_text_without_lt (s : string) :
  (forall n, String.get n s <> Some "<"%char) -> strip_tags s = s.
Proof.
  intros Hs. apply strip_tags_fixed. intros n.
  destruct (drop n s) as [|c r] eqn:Hd; [done|]. simpl.
  destruct (is_lt c) eqn:Hlt; [|done].
  exfalso. apply (Hs n). unfold is_lt in Hlt. apply Ascii.eqb_eq in Hlt. subst c.
  clear Hs. revert s Hd. induction n as [|n IH]; intros [|d s]; simpl; try done.
  - by intros [= -> _].
  - apply IH.
Qed.

Lemma strip_tags_keeps_text_without_lt_witness :
  strip_tags "Hello World" = "Hello World".
Proof.
  apply strip_tags_keeps_text_without_lt.
  intros n. do 11 (destruct n as [|n]; [discriminate|]). destruct n; discriminate.
Defined.

(** X4. With a positive integer limit the number of chunks is the length of
    the text divided by the limit, rounded up; there is no chunk exactly
    when the text is empty. *)
Theorem chunks_count (limit : Z) (text : string) :
  0 < limit ->
  exists cs : list string,
    chunks (PyInt limit) text = inr cs /\
    Z.of_nat (length cs) = (len text + limit - 1) / limit /\
    (cs = [] <-> text = EmptyString).
Proof.
  intros Hl. rewrite chunks_unfold by done.
  eexists. split; [reflexivity|].
  rewrite length_fmap, length_seq. unfold count.
  assert (Hn : 0 <= len text) by (unfold len; lia).
  assert (Hq : 0 <= (len text - 0 + limit - 1) / limit) by (apply Z.div_pos; lia).
  split; [rewrite Z2Nat.id by done; f_equal; lia|].
  split.
  - intros Hnil. apply fmap_nil_inv in Hnil.
    destruct (Z.to_nat ((len text - 0 + limit - 1) / limit)) as [|k] eqn:Hk; [|done].
    assert (Hz : (len text - 0 + limit - 1) / limit = 0) by lia.
    apply Z.div_small_iff in Hz; [|lia].
    destruct text; [done|]. unfold len in *. simpl in *. lia.
  - intros ->. change (len EmptyString) with 0.
    replace ((0 - 0 + limit - 1) / limit) with 0; [done|].
    symmetry. apply Z.div_small. lia.
Qed.

Lemma chunks_count_witness :
  exists cs : list string,
    chunks (PyInt 4) "abcdefghij" = inr cs /\ Z.of_nat (length cs) = 3.
Proof.
  destruct (chunks_count 4 "abcdefghij") as (cs & Hcs & Hlen & _); [lia|].
  exists cs. split; [exact Hcs|]. rewrite Hlen. reflexivity.
Defined.

(** A limit of zero makes the comprehension raise [ValueError] (a
    [range] step of zero); a negative limit makes it produce no chunk at
    all, whatever the text. *)
Lemma chunks_nonpositive_limit (limit : Z) (text : string) :
  limit <= 0 ->
  chunks (PyInt limit) text = if limit =? 0 then inl ValueError else inr [].
Proof.
  intros Hl. unfold chunks, py_range.
  destruct (Z.eqb_spec limit 0) as [?|Hne]; [done|].
  destruct (Z.ltb_spec 0 limit) as [?|_]; [lia|].
  assert (Hn : 0 <= len text) by (unfold len; lia).
  assert (Hq : (0 - len text - limit - 1) / - limit <= 0).
  { apply Z.lt_succ_r. apply Z.div_lt_upper_bound; lia. }
  replace (Z.to_nat ((0 - len text - limit - 1) / - limit)) with 0%nat by lia.
  reflexivity.
Qed.

End ChunkerSpec.

(** ** The run loop *)

Module AgentSpec.

Import Agent.

Section Facts.

Context (E : Env).





(** The loop hands on a run whose status is one of the two awaited ones. *)
Lemma poll_while_returns fuel run thread_id run_id (w w' : World E) out :
  poll_while E fuel run thread_id run_id w = Ret out w' ->
  in_completed_or_requires_action (status out) = true.
Proof.
  revert run w. induction fuel as [|fuel IH]; intros run w; simpl; [done|].
  destruct (in_completed_or_requires_action (status run)) eqn:Hin; simpl.
  - by intros [= <- _].
  - destruct (retrieve E thread_id run_id w) as [run' w1]. apply IH.
Qed.

(** What [wait_for_run] returns is a run that a poll showed completed, or
    waiting for an action other than tool outputs. *)
Lemma wait_for_run_returns fuel thread_id run_id (w w' : World E) out :
  wait_for_run E fuel thread_id run_id w = Ret out w' ->
  status out = "completed" \/ status out = "requires_action".
Proof.
  revert w. induction fuel as [|fuel IH]; intros w; [done|].
  cbn [wait_for_run].
  destruct (retrieve E thread_id run_id w) as [run w0].
  destruct (poll_while E (S fuel) run thread_id run_id w0) as [run1 w1| |] eqn:Hloop;
    [|done..].
  apply poll_while_returns in Hloop. cbn [bind].
  destruct (String.eqb_spec (status run1) "completed") as [Hc|Hc].
  { intros [= <- _]. by left. }
  destruct (String.eqb_spec (status run1) "requires_action") as [Hr|Hr].
  - destruct (required_action run1) as [action|]; [|done].
    destruct (String.eqb (action_type action) "submit_tool_outputs").
    + destruct (handle_submit_tool_outputs E (tool_calls action) thread_id run_id w1)
        as [o w2| |]; [|done..].
      cbn [bind]. apply IH.
    + intros [= <- _]. by right.
  - unfold in_completed_or_requires_action in Hloop.
    apply orb_true_iff in Hloop as [Hin|Hin]; apply String.eqb_eq in Hin; done.
Qed.

(** One call of [handle_submit_tool_outputs] makes at most one call of
    [submit_tool_outputs], and that call carries one output. *)
Lemma handle_submit_tool_outputs_at_most_one calls thread_id run_id (w w' : World E) out :
  handle_submit_tool_outputs E calls thread_id run_id w = Ret out w' ->
  submitted w' = submitted w \/
  exists call results,
    call ∈ calls /\
    submitted w' = submitted w ++ [[ {| tool_call_id := call_id call; output := results |} ]].
Proof.
  induction calls as [|call rest IH]; simpl.
  - intros [= _ <-]. by left.
  - destruct (tool_results E call) as [e|[results|]]; [done| |].
    + unfold submit_search_confluence_tool_outputs.
      destruct (runs_submit_tool_outputs _ _ _ _ _) as [r s].
      intros [= _ <-]. right. exists call, results. split; [left|done].
    + intros H. destruct (IH H) as [?|(c & rs & Hc & ?)]; [by left|].
      right. exists c, rs. split; [by right|done].
Qed.


Lemma extract_relevant_messages_app before (posted : ThreadMessage) after :
  message_id posted ∉ message_id <$> before ->
  extract_relevant_messages (before ++ posted :: after) (message_id posted) = before.
Proof.
  induction before as [|m before IH]; simpl; intros Hnot.
  - by rewrite String.eqb_refl.
  - destruct (String.eqb_spec (message_id m) (message_id posted)) as [Heq|_].
    + exfalso. apply Hnot. rewrite Heq. left.
    + rewrite IH; [done|]. intros Hin. apply Hnot. by right.
Qed.

End Facts.

Import AgentScenario.

(** C1. A run step with two pending tool calls: the loop dispatches the
    first call, submits its single output and goes back to polling; the
    second call is never dispatched and gets no output. *)
Theorem two_pending_calls_one_output :
  returned (wait_for_run env 3 "thread_1" "run_1" (start two_calls))
  = Some (run_with "completed" None) /\
  (submitted <$> final_world (wait_for_run env 3 "thread_1" "run_1" (start two_calls)))
  = Some [[ {| tool_call_id := "call_1"; output := "{..}" |} ]].
Proof. split; reflexivity. Qed.







(** C7, as stated, fails: two replies come back newest first, not in the
    order in which they were written; and were the service to list the
    thread oldest first, the messages returned would be the older ones. *)
Lemma two_replies_come_back_newest_first :
  returned (send_message env 3 "What is the API URL?" "C01" (start (two_replies true)))
  = Some [reply_2; reply_1] /\
  ((fun w : World env => thread (svc w : Service))
     <$> final_world (send_message env 3 "What is the API URL?" "C01"
                        (start (two_replies true))))
  = Some [earlier_question; earlier_answer;
          text_message "msg_1" "What is the API URL?"; reply_1; reply_2] /\
  returned (send_message env 3 "What is the API URL?" "C01" (start (two_replies false)))
  = Some [earlier_question; earlier_answer].
Proof. repeat split; reflexivity. Qed.

(** C7, amended. What [send_message] returns is what the service lists
    before the message just posted, in the order of the listing. Where the
    listing is the thread newest first, these are the messages written after
    the posted one, newest first; when that is a single text message, the
    manager's answer is its text, unchanged. *)
Theorem send_message_returns_listing_prefix
    (E : Env) (fuel : nat) (message thread_key : string) (w w' : World E)
    (out older newer : list ThreadMessage) :
  send_message E fuel message thread_key w = Ret out w' ->
  let thread_id := fst (get_openai_thread E thread_key w) in
  let posted :=
    fst (create_message E thread_id message (snd (get_openai_thread E thread_key w))) in
  messages_list E thread_id (svc w') = reverse (older ++ posted :: newer) ->
  message_id posted ∉ message_id <$> newer ->
  out = reverse newer /\
  (forall m part parts,
     newer = [m] -> content m = part :: parts ->
     part_type part = "text" -> text_value part <> "" ->
     (try texts <- answer_texts out in inr (Str.join "," texts))
     = inr (text_value part)).
Proof.
  unfold send_message.
  destruct (get_openai_thread E thread_key w) as [t w1]. simpl.
  destruct (create_message E t message w1) as [msg w2]. simpl.
  destruct (create_run E t w2) as [run w3].
  destruct (wait_for_run E fuel t (run_id run) w3) as [run' w4| |]; simpl; [|done..].
  intros [= <- <-] Hlist Hnew. unfold get_thread_messages. rewrite Hlist.
  assert (Hout : extract_relevant_messages
                   (reverse (older ++ msg :: newer)) (message_id msg) = reverse newer).
  { rewrite reverse_app, reverse_cons, <- app_assoc. simpl.
    apply extract_relevant_messages_app.
    rewrite fmap_reverse. by rewrite elem_of_reverse. }
  rewrite Hout. split; [done|].
  intros m part parts -> Hc Hty Htx. simpl. rewrite Hc. simpl.
  rewrite Hty. simpl.
  destruct (text_value part) as [|c rest] eqn:Hv; [done|]. reflexivity.
Qed.

Lemma send_message_returns_listing_prefix_witness :
  returned (send_message env 3 "What is the API URL?" "C01" (start one_reply))
  = Some [reply_2] /\
  (try texts <- answer_texts [reply_2] in inr (Str.join "," texts))
  = inr "The URL is /api.".
Proof.
  destruct (send_message env 3 "What is the API URL?" "C01" (start one_reply))
    as [out w'| |] eqn:Hsend; [|discriminate Hsend..].
  destruct (send_message_returns_listing_prefix env 3 _ _ _ w' out
              [earlier_question; earlier_answer] [reply_2] Hsend) as [Hout Htext].
  - injection Hsend as _ <-. reflexivity.
  - simpl. intros Hin. apply list_elem_of_singleton in Hin. discriminate Hin.
  - rewrite Hout in *. split; [reflexivity|].
    apply (Htext reply_2
             {| part_type := "text"; text_value := "The URL is /api." |} []);
      [reflexivity | reflexivity | reflexivity | discriminate].
Defined.

Section More.

Context (E : Env).

Lemma only_submits_refl (w : World E) : only_submits E w w.
Proof.
  split; [done|]. split; [done|]. exists []. by rewrite app_nil_r.
Qed.

Lemma only_submits_trans (w1 w2 w3 : World E) :
  only_submits E w1 w2 -> only_submits E w2 w3 -> only_submits E w1 w3.
Proof.
  intros (T1 & A1 & n1 & S1 & F1) (T2 & A2 & n2 & S2 & F2).
  split; [congruence|]. split; [congruence|].
  exists (n1 ++ n2). split; [by rewrite S2, S1, app_assoc|].
  by apply Forall_app.
Qed.

Lemma retrieve_only_submits thread_id run_id (w : World E) :
  only_submits E w (snd (retrieve E thread_id run_id w)).
Proof.
  unfold retrieve. destruct (runs_retrieve E thread_id run_id (svc w)) as [r s].
  simpl. split; [done|]. split; [done|]. exists []. by rewrite app_nil_r.
Qed.

Lemma handle_only_submits calls thread_id run_id (w w' : World E) :
  final_world (handle_submit_tool_outputs E calls thread_id run_id w) = Some w' ->
  only_submits E w w'.
Proof.
  induction calls as [|call rest IH]; simpl.
  - intros [= <-]. apply only_submits_refl.
  - destruct (tool_results E call) as [e|[results|]].
    + intros [= <-]. apply only_submits_refl.
    + unfold submit_search_confluence_tool_outputs.
      destruct (runs_submit_tool_outputs _ _ _ _ _) as [r s].
      intros [= <-]. split; [done|]. split; [done|].
      eexists. split; [reflexivity|]. by repeat constructor.
    + apply IH.
Qed.

Lemma poll_while_only_submits fuel run thread_id run_id (w w' : World E) :
  final_world (poll_while E fuel run thread_id run_id w) = Some w' ->
  only_submits E w w'.
Proof.
  revert run w. induction fuel as [|fuel IH]; intros run w; simpl; [done|].
  destruct (in_completed_or_requires_action (status run)); simpl.
  - intros [= <-]. apply only_submits_refl.
  - pose proof (retrieve_only_submits thread_id run_id w) as Hr.
    destruct (retrieve E thread_id run_id w) as [run' w1]. intros H.
    eapply only_submits_trans; [exact Hr | by eapply IH].
Qed.

Lemma wait_for_run_only_submits fuel thread_id run_id (w w' : World E) :
  final_world (wait_for_run E fuel thread_id run_id w) = Some w' ->
  only_submits E w w'.
Proof.
  revert w. induction fuel as [|fuel IH]; intros w; [done|].
  cbn [wait_for_run].
  pose proof (retrieve_only_submits thread_id run_id w) as Hr.
  destruct (retrieve E thread_id run_id w) as [run w0]. simpl in Hr.
  destruct (poll_while E (S fuel) run thread_id run_id w0) as [run1 w1|e w1|] eqn:Hloop;
    cbn [bind]; [| |done].
  2:{ intros [= <-]. eapply only_submits_trans; [exact Hr|].
      eapply poll_while_only_submits. by rewrite Hloop. }
  assert (H01 : only_submits E w w1).
  { eapply only_submits_trans; [exact Hr|].
    eapply poll_while_only_submits. by rewrite Hloop. }
  destruct (String.eqb (status run1) "completed"); [by intros [= <-]|].
  destruct (String.eqb (status run1) "requires_action"); [|by intros [= <-]].
  destruct (required_action run1) as [action|]; [|by intros [= <-]].
  destruct (String.eqb (action_type action) "submit_tool_outputs"); [|by intros [= <-]].
  destruct (handle_submit_tool_outputs E (tool_calls action) thread_id run_id w1)
    as [o w2|e w2|] eqn:Hh; cbn [bind]; [| |done].
  - intros H. eapply only_submits_trans; [exact H01|].
    eapply only_submits_trans; [|by eapply IH].
    eapply handle_only_submits. by rewrite Hh.
  - intros [= <-]. eapply only_submits_trans; [exact H01|].
    eapply handle_only_submits. by rewrite Hh.
Qed.

(** X15. Whatever [wait_for_run] does before it returns or raises, it leaves
    the thread table and the assistant alone, and every call of
    [submit_tool_outputs] it makes carries exactly one output. *)
Theorem wait_for_run_submits_single_outputs
    (fuel : nat) (thread_id run_id : string) (w w' : World E) :
  final_world (wait_for_run E fuel thread_id run_id w) = Some w' ->
  _threads w' = _threads w /\
  _assistant w' = _assistant w /\
  exists new,
    submitted w' = submitted w ++ new /\
    Forall (fun outputs : list ToolOutput => length outputs = 1%nat) new.
Proof. apply wait_for_run_only_submits. Qed.


(** X17. [get_openai_thread] creates a thread for a key once: asked again
    for the same key it gives the same thread and changes nothing; the
    entries of other keys are left alone. *)
Theorem get_openai_thread_reuses (thread_key : string) (w : World E) :
  get_openai_thread E thread_key (snd (get_openai_thread E thread_key w))
  = get_openai_thread E thread_key w /\
  _threads (snd (get_openai_thread E thread_key w)) !! thread_key
  = Some (fst (get_openai_thread E thread_key w)) /\
  (forall k, k <> thread_key ->
     _threads (snd (get_openai_thread E thread_key w)) !! k = _threads w !! k).
Proof.
  unfold get_openai_thread.
  destruct (_threads w !! thread_key) as [t|] eqn:Hk; simpl.
  - by rewrite Hk.
  - destruct (threads_create E (svc w)) as [t s]. simpl.
    rewrite lookup_insert_eq. split; [done|]. split; [done|].
    intros k Hne. by rewrite lookup_insert_ne.
Qed.

End More.

(** X18. [extract_relevant_messages] returns the longest prefix of the
    listing in which no message has the given id: the listing is that prefix
    followed either by nothing or by the message with the id. *)
Theorem extract_relevant_messages_prefix
    (messages : list ThreadMessage) (message_id0 : string) :
  exists rest,
    messages = extract_relevant_messages messages message_id0 ++ rest /\
    Forall (fun m => message_id m <> message_id0)
      (extract_relevant_messages messages message_id0) /\
    (rest = [] \/ exists m rest', rest = m :: rest' /\ message_id m = message_id0).
Proof.
  induction messages as [|m messages (rest & Heq & Hall & Hrest)]; simpl.
  - exists []. split; [done|]. split; [done|]. by left.
  - destruct (String.eqb_spec (message_id m) message_id0) as [Hid|Hid].
    + exists (m :: messages). split; [done|]. split; [done|]. right. by exists m, messages.
    + exists rest. split; [simpl; by rewrite <- Heq|]. split; [by constructor|done].
Qed.

(** When no message of the listing has the given id (the posted message
    is not on the page that the service listed), the whole listing is
    returned. *)
Lemma extract_relevant_messages_absent
    (messages : list ThreadMessage) (message_id0 : string) :
  message_id0 ∉ message_id <$> messages ->
  extract_relevant_messages messages message_id0 = messages.
Proof.
  induction messages as [|m messages IH]; simpl; [done|].
  intros Hnot. destruct (String.eqb_spec (message_id m) message_id0) as [Hid|Hid].
  - exfalso. apply Hnot. rewrite Hid. left.
  - f_equal. apply IH. intros Hin. apply Hnot. by right.
Qed.

Section Dispatch.

Context (E : Env).

(** One call of [handle_submit_tool_outputs] that returns has made no
    call of [submit_tool_outputs], or one call with one output, tagged with
    the id of one of the pending calls. *)
Lemma handle_submit_tool_outputs_one_output
    (calls : list ToolCall) (thread_id run_id : string) (w w' : World E)
    (out : option Run) :
  handle_submit_tool_outputs E calls thread_id run_id w = Ret out w' ->
  submitted w' = submitted w \/
  exists call results,
    call ∈ calls /\
    submitted w' = submitted w ++ [[ {| tool_call_id := call_id call; output := results |} ]].
Proof. apply handle_submit_tool_outputs_at_most_one. Qed.

Lemma tool_results_unknown call :
  known_tool (function_name call) = false -> tool_results E call = inr None.
Proof.
  unfold known_tool, tool_results. intros H. apply orb_false_iff in H as [-> ->]. done.
Qed.

(** X19. Pending calls whose names are none of the two tools are passed
    over: their arguments are not parsed, nothing is submitted, nothing
    changes, and [None] is returned. *)
Theorem handle_submit_tool_outputs_unknown_tools
    (calls : list ToolCall) (thread_id run_id : string) (w : World E) :
  Forall (fun call => known_tool (function_name call) = false) calls ->
  handle_submit_tool_outputs E calls thread_id run_id w = Ret None w.
Proof.
  induction 1 as [|call calls Hcall _ IH]; simpl; [done|].
  by rewrite (tool_results_unknown _ Hcall).
Qed.

(** X20. A [search_confluence] call whose arguments parse to an object is
    answered by searching, with a limit of five, for the value under
    [cql_query] ([None] when the key is missing); when the search gives an
    object, the output is that object serialised. *)
Theorem tool_results_search
    (call : ToolCall) (fields results : list (string * JSON)) :
  function_name call = "search_confluence" ->
  json_loads E (function_arguments call) = inr (JObj fields) ->
  confluence_cql E (default JNull (assoc "cql_query" fields)) 5 = inr (JObj results) ->
  tool_results E call = inr (Some (json_dumps E (JObj results))).
Proof.
  intros Hname Hargs Hcql. unfold tool_results, search_confluence.
  rewrite Hname, Hargs. simpl.
  destruct (assoc "cql_query" fields); simpl in *; by rewrite Hcql.
Qed.

(** X21. Arguments that are valid JSON but not an object (a list, a string,
    [null]) make the dispatch of either tool raise [AttributeError]: the
    tool itself is not called. *)
Theorem tool_results_arguments_not_object (call : ToolCall) (v : JSON) :
  known_tool (function_name call) = true ->
  json_loads E (function_arguments call) = inr v ->
  is_object v = false ->
  tool_results E call = inl AttributeError.
Proof.
  intros Hname Hargs Hv. unfold tool_results.
  destruct (String.eqb (function_name call) "search_confluence") eqn:Hs.
  - rewrite Hargs. by destruct v.
  - unfold known_tool in Hname. rewrite Hs in Hname. simpl in Hname.
    rewrite Hname, Hargs. by destruct v.
Qed.

(** X22. A search that succeeds with a value that is not an object (a list
    of results, say) makes the dispatch raise [AttributeError] at
    [results.get]. *)
Theorem tool_results_search_not_object
    (call : ToolCall) (fields : list (string * JSON)) (v : JSON) :
  function_name call = "search_confluence" ->
  json_loads E (function_arguments call) = inr (JObj fields) ->
  confluence_cql E (default JNull (assoc "cql_query" fields)) 5 = inr v ->
  is_object v = false ->
  tool_results E call = inl AttributeError.
Proof.
  intros Hname Hargs Hcql Hv. unfold tool_results, search_confluence.
  rewrite Hname, Hargs. simpl.
  destruct (assoc "cql_query" fields); simpl in *; rewrite Hcql; by destruct v.
Qed.

(** X23. A run that [wait_for_run] returns is completed, or is waiting for an
    action that is not a submission of tool outputs. *)
Theorem wait_for_run_returns_completed_or_other_action
    (fuel : nat) (thread_id run_id : string) (w w' : World E) (out : Run) :
  wait_for_run E fuel thread_id run_id w = Ret out w' ->
  status out = "completed" \/
  (status out = "requires_action" /\
   exists action,
     required_action out = Some action /\
     action_type action <> "submit_tool_outputs").
Proof.
  revert w. induction fuel as [|fuel IH]; intros w; [done|].
  cbn [wait_for_run].
  destruct (retrieve E thread_id run_id w) as [run w0].
  destruct (poll_while E (S fuel) run thread_id run_id w0) as [run1 w1| |] eqn:Hloop;
    [|done..].
  apply poll_while_returns in Hloop. cbn [bind].
  destruct (String.eqb_spec (status run1) "completed") as [Hc|Hc].
  { intros [= <- _]. by left. }
  destruct (String.eqb_spec (status run1) "requires_action") as [Hr|Hr].
  - destruct (required_action run1) as [action|] eqn:Hact; [|done].
    destruct (String.eqb_spec (action_type action) "submit_tool_outputs") as [Ht|Ht].
    + destruct (handle_submit_tool_outputs E (tool_calls action) thread_id run_id w1)
        as [o w2| |]; [|done..].
      cbn [bind]. apply IH.
    + intros [= <- _]. right. split; [done|]. by exists action.
  - unfold in_completed_or_requires_action in Hloop.
    apply orb_true_iff in Hloop as [Hin|Hin]; apply String.eqb_eq in Hin; done.
Qed.

(** X24. In a channel, the conversation is the channel's: whoever asks, the
    answer, its effects and the thread used are the same. *)
Theorem answer_keyed_by_channel
    (fuel : nat) (user_query channel : string) (user1 user2 : option string)
    (w : World E) :
  channel <> EmptyString ->
  answer E fuel user_query user1 (Some channel) w
  = answer E fuel user_query user2 (Some channel) w.
Proof.
  intros Hc. unfold answer, get_session_thread_key.
  assert (Hf : falsy (Some channel) = false) by by destruct channel.
  by rewrite Hf, !andb_false_r.
Qed.

(** X25. The texts of an answer are the first content parts of the messages,
    in order, that are text and not empty; a message without any content
    part makes the comprehension raise [IndexError]. *)
Theorem answer_texts_spec (response : list ThreadMessage) :
  (Forall (fun m => content m <> []) response ->
   answer_texts response = inr (omap text_of response)) /\
  (Exists (fun m => content m = []) response ->
   answer_texts response = inl IndexError).
Proof.
  split.
  - induction 1 as [|m response Hm _ IH]; [done|]. simpl. unfold text_of.
    destruct (content m) as [|part parts]; [done|]. rewrite IH. simpl.
    by destruct (_ && _).
  - induction 1 as [m response Hm|m response _ IH]; simpl.
    + by rewrite Hm.
    + destruct (content m) as [|part parts]; [done|]. by rewrite IH.
Qed.

End Dispatch.

Lemma wait_for_run_submits_single_outputs_witness :
  exists w' new,
    final_world (wait_for_run env 3 "thread_1" "run_1" (start two_calls)) = Some w' /\
    submitted w' = new /\
    Forall (fun outputs : list ToolOutput => length outputs = 1%nat) new.
Proof.
  destruct (wait_for_run env 3 "thread_1" "run_1" (start two_calls))
    as [r w'|e w'|] eqn:Hrun; [|discriminate Hrun..].
  destruct (wait_for_run_submits_single_outputs env 3 "thread_1" "run_1"
              (start two_calls) w') as (_ & _ & new & Hnew & Hall).
  - exact (f_equal final_world Hrun).
  - exists w', new. split; [reflexivity|]. split; [exact Hnew | exact Hall].
Defined.


Lemma handle_submit_tool_outputs_unknown_tools_witness :
  handle_submit_tool_outputs env [other_call] "thread_1" "run_1" (start after_first_poll)
  = Ret None (start after_first_poll).
Proof.
  apply handle_submit_tool_outputs_unknown_tools. by repeat constructor.
Defined.

Lemma tool_results_search_witness :
  tool_results env call_1 = inr (Some "{..}").
Proof.
  apply (tool_results_search env call_1 [("cql_query", JStr "text ~ api")]
           [("size", JNum 0); ("results", JArr [])]); reflexivity.
Defined.

Lemma tool_results_arguments_not_object_witness :
  tool_results (env_finding JNull) list_call = inl AttributeError.
Proof.
  apply (tool_results_arguments_not_object (env_finding JNull) list_call (JArr []));
    reflexivity.
Defined.

Lemma tool_results_search_not_object_witness :
  tool_results (env_finding (JArr [])) call_1 = inl AttributeError.
Proof.
  apply (tool_results_search_not_object (env_finding (JArr [])) call_1
           [("cql_query", JStr "text ~ api")] (JArr [])); reflexivity.
Defined.

Lemma wait_for_run_returns_completed_or_other_action_witness :
  exists out w',
    wait_for_run env 3 "thread_1" "run_1" (start two_calls) = Ret out w' /\
    status out = "completed".
Proof.
  destruct (wait_for_run env 3 "thread_1" "run_1" (start two_calls))
    as [out w'|e w'|] eqn:Hrun; [|discriminate Hrun..].
  exists out, w'. split; [reflexivity|].
  destruct (wait_for_run_returns_completed_or_other_action env 3 "thread_1" "run_1"
              (start two_calls) w' out Hrun) as [Hc|[Hr _]]; [exact Hc|].
  injection Hrun as <- _. discriminate Hr.
Defined.

Lemma answer_keyed_by_channel_witness :
  answer env 3 "What is the API URL?" (Some "U01") (Some "C01") (start one_reply)
  = answer env 3 "What is the API URL?" (Some "U02") (Some "C01") (start one_reply).
Proof. apply answer_keyed_by_channel. discriminate. Defined.

Lemma answer_texts_spec_witness :
  answer_texts [reply_2; reply_1] = inr ["The URL is /api."; "Searching."] /\
  answer_texts [reply_2; hollow] = inl IndexError.
Proof.
  split.
  - apply (proj1 (answer_texts_spec [reply_2; reply_1])).
    repeat constructor; discriminate.
  - apply (proj2 (answer_texts_spec [reply_2; hollow])).
    right. left. reflexivity.
Defined.

Lemma dict_set_fresh {V} (key : string) (value : V) (d : list (string * V)) :
  key ∉ d.*1 -> dict_set key value d = d ++ [(key, value)].
Proof.
  induction d as [|[k v] d IH]; simpl; [done|]. intros Hnot.
  destruct (String.eqb_spec k key) as [->|_].
  - exfalso. apply Hnot. left.
  - rewrite IH; [done|]. intros Hin. apply Hnot. by right.
Qed.

Lemma fold_add_parameter (signature : list Param) (schema : Schema) :
  NoDup ((properties schema).*1 ++ (param_name <$> signature)) ->
  fold_left add_parameter signature schema
  = {| object_type := object_type schema;
       properties := properties schema ++ (property_of <$> signature);
       required :=
         required schema
         ++ (param_name <$> List.filter (fun p => negb (has_default p)) signature) |}.
Proof.
  revert schema. induction signature as [|p signature IH]; intros schema Hnd; simpl.
  - rewrite !app_nil_r. by destruct schema.
  - assert (Hfresh : param_name p ∉ (properties schema).*1).
    { apply NoDup_app in Hnd as (_ & Hdisj & _). intros Hin.
      apply (Hdisj _ Hin). left. }
    rewrite IH.
    + unfold add_parameter at 1 2 3. simpl.
      rewrite dict_set_fresh by done. rewrite <- !app_assoc. simpl.
      unfold has_default, property_of. destruct (param_default p); simpl; [done|].
      by rewrite <- app_assoc.
    + unfold add_parameter. simpl. rewrite dict_set_fresh by done.
      rewrite fmap_app. simpl. rewrite <- app_assoc. exact Hnd.
Qed.

(** X26. For a signature (its parameter names are distinct) the schema lists
    one property per parameter, in order, typed by one of the six JSON type
    names ([string] when the annotation is missing or not a builtin), and
    requires exactly the parameters that have no default, in order. *)
Theorem generate_json_schema_spec (signature : list Param) :
  NoDup (param_name <$> signature) ->
  object_type (generate_json_schema signature) = "object" /\
  properties (generate_json_schema signature) = property_of <$> signature /\
  required (generate_json_schema signature)
  = param_name <$> List.filter (fun p => negb (has_default p)) signature /\
  Forall (fun kv : string * ParamSchema => schema_type kv.2 ∈ json_type_names)
    (properties (generate_json_schema signature)).
Proof.
  intros Hnd. unfold generate_json_schema.
  rewrite fold_add_parameter by done. simpl.
  split; [done|]. split; [done|]. split; [done|].
  apply Forall_fmap, Forall_forall. intros p _. simpl.
  unfold json_type_names.
  destruct (annotation p) as [[]|]; simpl; set_solver.
Qed.

Lemma generate_json_schema_spec_witness :
  required (generate_json_schema
              [ {| param_name := "cql_query"; annotation := Some hint_str;
                   param_default := None |};
                {| param_name := "limit"; annotation := Some hint_int;
                   param_default := Some (JNum 5) |} ])
  = ["cql_query"].
Proof.
  destruct (generate_json_schema_spec
              [ {| param_name := "cql_query"; annotation := Some hint_str;
                   param_default := None |};
                {| param_name := "limit"; annotation := Some hint_int;
                   param_default := Some (JNum 5) |} ]) as (_ & _ & Hreq & _).
  - apply NoDup_cons. split.
    + intros Hin. apply list_elem_of_singleton in Hin. discriminate Hin.
    + apply NoDup_singleton.
  - exact Hreq.
Defined.

Section LegacyFacts.

Context (E : Env) (py_str : JSON -> string) (confluence_base_url : string).
Context (cql_prompt : string -> string) (answer_prompt : string -> JSON -> string).

Lemma formulate_answer_loop_raises user_query thread_key result rest :
  exists e,
    formulate_answer_loop py_str confluence_base_url answer_prompt
      user_query thread_key (result :: rest) = inl e.
Proof.
  simpl. destruct (py_getitem result "results") as [e|context]; by eexists.
Qed.

(** X27. [formulate_answer] returns only when the results are falsy, and then
    with the nothing-found sentence: on any other results it raises while
    handling the first of them, since the manager has no
    [send_openai_message_await_responses]. *)
Theorem formulate_answer_returns_only_nothing_found
    (user_query : string) (results : JSON) (thread_key : option string) (s : string) :
  formulate_answer py_str confluence_base_url answer_prompt
    user_query results thread_key = inr s ->
  py_truthy results = false /\
  s = "I couldn't find any information related to your query.".
Proof.
  unfold formulate_answer.
  destruct (py_truthy results) eqn:Ht; simpl; [|by intros [= <-]].
  destruct results as [|b|z|str|items|fields]; cbn [py_iter ebind]; try done.
  - destruct str as [|c str]; [done|]. cbn [chars].
    by destruct (formulate_answer_loop_raises user_query thread_key
                   (JStr (String c EmptyString)) (chars str)) as [e ->].
  - destruct items as [|result rest]; [done|].
    by destruct (formulate_answer_loop_raises user_query thread_key result rest)
      as [e ->].
  - destruct fields as [|[k v] rest]; [done|]. rewrite fmap_cons. cbn [fst].
    by destruct (formulate_answer_loop_raises user_query thread_key
                   (JStr k) ((fun kv => JStr kv.1) <$> rest)) as [e ->].
Qed.

(** X28. [answer_old] never answers: it raises [ValueError] when neither a
    user nor a channel is given, and [AttributeError] otherwise, before any
    search is made. *)
Theorem answer_old_always_raises
    (user_query : string) (slack_user slack_channel : option string) :
  answer_old E py_str confluence_base_url cql_prompt answer_prompt
    user_query slack_user slack_channel
  = if falsy slack_user && falsy slack_channel
    then inl ValueError else inl AttributeError.
Proof.
  unfold answer_old, get_session_thread_key.
  by destruct (falsy slack_user && falsy slack_channel).
Qed.

End LegacyFacts.

Lemma formulate_answer_returns_only_nothing_found_witness :
  formulate_answer (fun _ => EmptyString) "https://example.atlassian.net"
    (fun _ _ => EmptyString) "What is the API URL?" (JArr []) (Some "C01")
  = inr "I couldn't find any information related to your query." /\
  py_truthy (JArr []) = false.
Proof.
  split; [reflexivity|].
  apply (formulate_answer_returns_only_nothing_found
           (fun _ => EmptyString) "https://example.atlassian.net"
           (fun _ _ => EmptyString) "What is the API URL?" (JArr []) (Some "C01")
           "I couldn't find any information related to your query.").
  reflexivity.
Defined.

End AgentSpec.

(** ** The retry supervisor *)

Module AIChatSpec.

Import AIChat.

Section Facts.

Context (E : Env).

Lemma generate_response_step fuel self l failure_count w :
  generate_response E (S fuel) self (Some l) failure_count w
  = let w1 := log_prompt (formulating_prompt self (Some (heap w !!! l))) w in
    match formulate E self (prompts w) (heap w !!! l) with
    | Apologise => Ret apology w1
    | Answered a => Ret a w1
    | Search c =>
        let w2 := log_query (query_of c) w1 in
        match process_query E self (query_of c) with
        | inl e => Raise e w2
        | inr response =>
            if Str.is_empty response then
              if failure_count + 1 <? 2 then
                bind (generate_response E fuel self (Some l) (failure_count + 1)
                        (extend l c w2))
                  (fun _ w' => Ret apology w')
              else Ret apology (extend l c w2)
            else Ret response w2
        end
    end.
Proof.
  unfold formulate, query_of.
  change (generate_response E (S fuel) self (Some l) failure_count w) with
    (let user_query := formulating_prompt self (Some (heap w !!! l)) in
     let ai_response := ask_cql E (prompts w) (system_prompt self) user_query in
     let w0 := log_prompt user_query w in
     match truthy (warning ai_response) with
     | Some _ => Ret apology w0
     | None =>
     match truthy (failure ai_response) with
     | Some _ => Ret apology w0
     | None =>
     match truthy (answer ai_response) with
     | Some a => Ret a w0
     | None =>
     match truthy_list (cql ai_response) with
     | Some c =>
         let query := Str.join " OR " ((fun c => "(" +:+ c +:+ ")") <$> c) in
         let w1 := log_query query w0 in
         match process_query E self query with
         | inl e => Raise e w1
         | inr response =>
             if Str.is_empty response then
               if failure_count + 1 <? 2 then
                 bind (generate_response E fuel self (Some l) (failure_count + 1)
                         (extend l c w1))
                   (fun _ w' => Ret apology w')
               else Ret apology (extend l c w1)
             else Ret response w1
         end
     | None => Ret apology w0
     end end end end).
  cbv zeta.
  destruct (truthy (warning _)); [done|].
  destruct (truthy (failure _)); [done|].
  destruct (truthy (answer _)); [done|].
  by destruct (truthy_list (cql _)).
Qed.

Lemma generate_response_last fuel self l w :
  generate_response E (S fuel) self (Some l) 1 w = last_cycle E self l w.
Proof. by rewrite generate_response_step. Qed.

Lemma heap_extend l c w : heap (extend l c w) !!! l = (heap w !!! l) ++ c.
Proof. simpl. by rewrite lookup_total_insert_eq. Qed.

(** A cycle that does not miss contradicts any claim that it did. *)
Ltac no_miss :=
  let c := fresh "c" in
  let Hf := fresh "Hf" in
  let Hq := fresh "Hq" in
  intros c [Hf Hq]; congruence.

(** The last cycle sends one prompt, and what it appends to the failed list
    is the fragments of its own search when that search misses. *)
Lemma last_cycle_trace self l w :
  exists w' added,
    final_world (last_cycle E self l w) = Some w' /\
    prompts w' = prompts w ++ [formulating_prompt self (Some (heap w !!! l))] /\
    heap w' !!! l = (heap w !!! l) ++ added /\
    (forall c, missed E self (prompts w) (heap w !!! l) c ->
       added = c /\ returned (last_cycle E self l w) = Some apology).
Proof.
  unfold last_cycle, missed.
  destruct (formulate E self (prompts w) (heap w !!! l)) as [|a|c] eqn:Hf.
  - eexists _, []. simpl. rewrite app_nil_r.
    split; [done|]. split; [done|]. split; [done|]. no_miss.
  - eexists _, []. simpl. rewrite app_nil_r.
    split; [done|]. split; [done|]. split; [done|]. no_miss.
  - destruct (process_query E self (query_of c)) as [e|response] eqn:Hq.
    + eexists _, []. simpl. rewrite app_nil_r.
      split; [done|]. split; [done|]. split; [done|]. no_miss.
    + destruct response as [|ch rest]; simpl.
      * eexists _, c.
        split; [reflexivity|]. split; [done|].
        split; [exact (heap_extend l c _)|].
        intros c' [Hf' _]. by injection Hf' as <-.
      * eexists _, []. simpl. rewrite app_nil_r.
        split; [done|]. split; [done|]. split; [done|]. no_miss.
Qed.

(** A top-level call: at most two cycles, whatever the assistant says. *)
Lemma generate_response_trace k self l w :
  exists w' rest added,
    final_world (generate_response E (2 + k) self (Some l) 0 w) = Some w' /\
    prompts w' = prompts w ++ formulating_prompt self (Some (heap w !!! l)) :: rest /\
    (length rest <= 1)%nat /\
    heap w' !!! l = (heap w !!! l) ++ added /\
    (forall c1, missed E self (prompts w) (heap w !!! l) c1 ->
       rest = [formulating_prompt self (Some ((heap w !!! l) ++ c1))] /\
       exists added2,
         added = c1 ++ added2 /\
         (forall c2,
            missed E self (prompts w ++ [formulating_prompt self (Some (heap w !!! l))])
              ((heap w !!! l) ++ c1) c2 ->
            added2 = c2 /\
            returned (generate_response E (2 + k) self (Some l) 0 w) = Some apology)).
Proof.
  change (2 + k)%nat with (S (S k)). rewrite generate_response_step. cbv zeta.
  unfold missed.
  destruct (formulate E self (prompts w) (heap w !!! l)) as [|a|c] eqn:Hf.
  - eexists _, [], []. simpl. rewrite app_nil_r.
    split; [done|]. split; [done|]. split; [lia|]. split; [done|]. no_miss.
  - eexists _, [], []. simpl. rewrite app_nil_r.
    split; [done|]. split; [done|]. split; [lia|]. split; [done|]. no_miss.
  - destruct (process_query E self (query_of c)) as [e|response] eqn:Hq.
    + eexists _, [], []. simpl. rewrite app_nil_r.
      split; [done|]. split; [done|]. split; [lia|]. split; [done|]. no_miss.
    + destruct response as [|ch more]; simpl Str.is_empty; cbv iota.
      * change (0 + 1 <? 2) with true. cbv iota.
        rewrite generate_response_last.
        set (w3 := extend l c _).
        destruct (last_cycle_trace self l w3) as (w' & added & Hw' & Hp & Hh & Hm).
        assert (Hh3 : heap w3 !!! l = (heap w !!! l) ++ c)
          by exact (heap_extend l c _).
        assert (Hp3 : prompts w3
                      = prompts w ++ [formulating_prompt self (Some (heap w !!! l))])
          by done.
        rewrite Hh3 in Hp, Hh, Hm. rewrite Hp3 in Hp, Hm.
        exists w', [formulating_prompt self (Some ((heap w !!! l) ++ c))], (c ++ added).
        split; [by destruct (last_cycle E self l w3)|].
        split; [by rewrite Hp, <- app_assoc|].
        split; [simpl; lia|].
        split; [by rewrite Hh, app_assoc|].
        intros c1 [Hf1 _]. injection Hf1 as <-. split; [done|].
        exists added. split; [done|].
        intros c2 Hc2. destruct (Hm c2 Hc2) as [-> Hr]. split; [done|].
        by destruct (last_cycle E self l w3).
      * eexists _, [], []. simpl. rewrite app_nil_r.
        split; [done|]. split; [done|]. split; [lia|]. split; [done|]. no_miss.
Qed.

Lemma formulate_search_nonempty self history failed c :
  formulate E self history failed = Search c -> c <> [].
Proof.
  unfold formulate.
  destruct (truthy (warning _)); [done|].
  destruct (truthy (failure _)); [done|].
  destruct (truthy (answer _)); [done|].
  destruct (cql _) as [[|f fs]|]; simpl; [done| |done].
  by intros [= <-].
Qed.

Lemma formulating_prompt_forbidden self failed c :
  c <> [] ->
  formulating_prompt self (Some (failed ++ c))
  = base_prompt self +:+ forbidden_section (failed ++ c).
Proof.
  intros Hc. destruct (failed ++ c) as [|f fs] eqn:Happ; [|done].
  by apply app_eq_nil in Happ as [_ ->].
Qed.

(** No result from the store, no answer from [process_query]. *)
Lemma process_query_no_results self query :
  confluence_cql E query 5 = inr [] -> process_query E self query = inr EmptyString.
Proof. intros H. unfold process_query. by rewrite H. Qed.

Lemma generate_response_fuel k self l w :
  generate_response E (2 + k) self (Some l) 0 w = generate_response E 2 self (Some l) 0 w.
Proof.
  change (2 + k)%nat with (S (S k)). rewrite !generate_response_step. cbv zeta.
  destruct (formulate E self (prompts w) (heap w !!! l)) as [|a|c]; [done..|].
  destruct (process_query E self (query_of c)) as [e|response]; [done|].
  destruct (Str.is_empty response); [|done].
  change (0 + 1 <? 2) with true. cbv iota. by rewrite !generate_response_last.
Qed.

End Facts.

Import AIChatScenario.

(** C3. The first search finds nothing, the retry's search finds the page
    and [process_query] gives its answer; the inner call returns that answer,
    the outer call drops it and returns the apology. *)
Theorem answer_found_on_retry_is_dropped :
  process_query second_try manager "(text ~ api)"
  = inr "Page ID42: /api, Refs: /wiki/42" /\
  (queries <$> final_world (generate_response_default second_try 2 manager fresh))
  = Some ["(title ~ api)"; "(text ~ api)"] /\
  returned (generate_response second_try 1 manager (Some failed_cql_default) 1
              after_first_miss)
  = Some "Page ID42: /api, Refs: /wiki/42" /\
  returned (generate_response_default second_try 2 manager fresh) = Some apology.
Proof. repeat split; reflexivity. Qed.

(** C4. A top-level call ends within two Formulating cycles whatever the
    assistant says: with fuel for two calls it returns or raises, more fuel
    changes nothing, it sends one or two prompts, and when both cycles end
    in a search that misses it returns the apology. *)
Theorem generate_response_terminates
    (E : Env) (self : AIChatManager) (l : loc) (w : World) (k : nat) :
  generate_response E (2 + k) self (Some l) 0 w <> OutOfFuel /\
  generate_response E (2 + k) self (Some l) 0 w
  = generate_response E 2 self (Some l) 0 w /\
  (exists w' new,
     final_world (generate_response E (2 + k) self (Some l) 0 w) = Some w' /\
     prompts w' = prompts w ++ new /\
     (1 <= length new <= 2)%nat) /\
  (forall c1 c2,
     missed E self (prompts w) (heap w !!! l) c1 ->
     missed E self (prompts w ++ [formulating_prompt self (Some (heap w !!! l))])
       ((heap w !!! l) ++ c1) c2 ->
     returned (generate_response E (2 + k) self (Some l) 0 w) = Some apology).
Proof.
  destruct (generate_response_trace E k self l w)
    as (w' & rest & added & Hw' & Hp & Hlen & _ & Hm).
  split; [by destruct (generate_response E (2 + k) self (Some l) 0 w)|].
  split; [apply generate_response_fuel|].
  split.
  - exists w', (formulating_prompt self (Some (heap w !!! l)) :: rest).
    split; [done|]. split; [done|]. simpl. lia.
  - intros c1 c2 H1 H2.
    destruct (Hm c1 H1) as (_ & added2 & _ & Hm2). by destruct (Hm2 c2 H2).
Qed.

Lemma generate_response_terminates_witness :
  returned (generate_response stubborn 2 manager (Some failed_cql_default) 0 fresh)
  = Some apology.
Proof.
  destruct (generate_response_terminates stubborn manager failed_cql_default fresh 0)
    as (_ & _ & _ & Hm).
  apply (Hm ["title ~ api"] ["title ~ api"]); split; reflexivity.
Defined.

(** C5, as stated, fails: the fragment recorded as failed after the first
    search is searched again in the retry, and the retry's own search, which
    also finds nothing, is followed by no retry. *)
Lemma failed_fragment_is_searched_again :
  process_query stubborn manager "(title ~ api)" = inr EmptyString /\
  (queries <$> final_world (generate_response_default stubborn 2 manager fresh))
  = Some ["(title ~ api)"; "(title ~ api)"] /\
  ((fun w => length (prompts w))
     <$> final_world (generate_response_default stubborn 2 manager fresh))
  = Some 2%nat /\
  ((fun w => heap w !!! failed_cql_default)
     <$> final_world (generate_response_default stubborn 2 manager fresh))
  = Some ["title ~ api"; "title ~ api"].
Proof. repeat split; reflexivity. Qed.

(** C5, amended. When the first query of a top-level call finds no result,
    [process_query] returns the empty string and the call makes exactly one
    retry: two prompts in all, the second being the base prompt followed by
    the forbidden section over the failed list, which now ends with the
    fragments of the failed query; those fragments are in the list when the
    call ends. *)
Theorem zero_results_trigger_one_retry
    (E : Env) (self : AIChatManager) (l : loc) (w : World) (k : nat)
    (c1 : list string) :
  formulate E self (prompts w) (heap w !!! l) = Search c1 ->
  confluence_cql E (query_of c1) 5 = inr [] ->
  process_query E self (query_of c1) = inr EmptyString /\
  exists w',
    final_world (generate_response E (2 + k) self (Some l) 0 w) = Some w' /\
    prompts w'
    = prompts w ++ [formulating_prompt self (Some (heap w !!! l));
                    base_prompt self
                    +:+ forbidden_header
                    +:+ Str.join (Str.newline +:+ "- ") ((heap w !!! l) ++ c1)] /\
    (forall f, f ∈ c1 -> f ∈ heap w' !!! l).
Proof.
  intros Hf Hcql.
  pose proof (process_query_no_results E self _ Hcql) as Hq.
  split; [exact Hq|].
  destruct (generate_response_trace E k self l w)
    as (w' & rest & added & Hw' & Hp & _ & Hh & Hm).
  destruct (Hm c1 (conj Hf Hq)) as (-> & added2 & -> & _).
  exists w'. split; [done|]. split.
  - rewrite Hp. do 2 f_equal.
    rewrite formulating_prompt_forbidden by by eapply formulate_search_nonempty.
    reflexivity.
  - intros f Hin. rewrite Hh. apply elem_of_app. right. apply elem_of_app. by left.
Qed.

Lemma zero_results_trigger_one_retry_witness :
  exists w',
    final_world (generate_response stubborn 2 manager (Some failed_cql_default) 0 fresh)
    = Some w' /\
    "title ~ api" ∈ heap w' !!! failed_cql_default.
Proof.
  destruct (zero_results_trigger_one_retry stubborn manager failed_cql_default fresh 0
              ["title ~ api"]) as (_ & w' & Hw' & _ & Hin).
  - reflexivity.
  - reflexivity.
  - exists w'. split; [exact Hw'|]. apply Hin. left.
Defined.



Import StrFacts.

Section More.

Context (E : Env).

Lemma generate_response_unfold fuel self failed_cql failure_count w :
  generate_response E (S fuel) self failed_cql failure_count w
  = let w0 := log_prompt (cycle_prompt self failed_cql w) w in
    match truthy (warning (reply E self failed_cql w)) with
    | Some _ => Ret apology w0
    | None =>
    match truthy (failure (reply E self failed_cql w)) with
    | Some _ => Ret apology w0
    | None =>
    match truthy (answer (reply E self failed_cql w)) with
    | Some a => Ret a w0
    | None =>
    match truthy_list (cql (reply E self failed_cql w)) with
    | Some c =>
        let w1 := log_query (query_of c) w0 in
        match process_query E self (query_of c) with
        | inl e => Raise e w1
        | inr response =>
            if Str.is_empty response then
              match failed_cql with
              | None => Raise AttributeError w1
              | Some l =>
                  if failure_count + 1 <? 2 then
                    bind (generate_response E fuel self failed_cql (failure_count + 1)
                            (extend l c w1))
                      (fun _ w' => Ret apology w')
                  else Ret apology (extend l c w1)
              end
            else Ret response w1
        end
    | None => Ret apology w0
    end end end end.
Proof. reflexivity. Qed.

Lemma join_cons_nonempty sep c x rest :
  exists tail, Str.join sep (String c x :: rest) = String c tail.
Proof.
  destruct rest as [|y rest]; [by exists x|].
  eexists. unfold Str.join. simpl String.concat. by rewrite append_cons.
Qed.

Lemma process_result_shape self result s :
  process_result E self result = inr (Some s) ->
  exists tail, s = "Page ID" +:+ content_id result +:+ ": " +:+ tail.
Proof.
  unfold process_result.
  destruct (get_page_by_id E (content_id result) "body.view") as [e|page]; [done|].
  simpl.
  destruct (Chunker.chunks _ _) as [e|chunks]; [done|]. simpl.
  destruct (omap (process_chunk E self) chunks) as [|a answers]; [done|].
  rewrite fmap_cons. intros [= <-].
  destruct (_ <$> answers) as [|y rest].
  - eexists. reflexivity.
  - eexists. unfold Str.join. simpl String.concat.
    rewrite !append_assoc. reflexivity.
Qed.

Lemma map_raise_inr {A B} (f : A -> PyExn + B) xs ys :
  map_raise f xs = inr ys -> Forall2 (fun x y => f x = inr y) xs ys.
Proof.
  revert ys. induction xs as [|x xs IH]; simpl; intros ys.
  - intros [= <-]. constructor.
  - destruct (f x) as [e|y] eqn:Hx; [done|]. simpl.
    destruct (map_raise f xs) as [e|ys'] eqn:Hxs; [done|]. simpl.
    intros [= <-]. constructor; [done | by apply IH].
Qed.

Lemma join_empty_iff sep l :
  Forall (fun a => a <> EmptyString) l -> (Str.join sep l = EmptyString <-> l = []).
Proof.
  intros Hl. split; [|by intros ->].
  destruct l as [|a rest]; [done|]. apply Forall_cons in Hl as [Ha _].
  destruct a as [|c a]; [done|].
  destruct (join_cons_nonempty sep c a rest) as [tail ->]. done.
Qed.

(** X6. What [process_result] returns for a page is [None] or a text that
    opens with the page tag, [Page ID] and the page's id; never the empty
    string. *)
Theorem process_result_is_tagged
    (self : AIChatManager) (result : SearchResult) (s : string) :
  process_result E self result = inr (Some s) ->
  exists tail, s = "Page ID" +:+ content_id result +:+ ": " +:+ tail.
Proof. apply process_result_shape. Qed.

Lemma answers_nonempty self results answers :
  Forall2 (fun r a => process_result E self r = inr a) results answers ->
  Forall (fun a => a <> EmptyString) (omap id answers).
Proof.
  induction 1 as [|r a results answers Hr _ IH]; [constructor|].
  destruct a as [a|]; simpl; [|done]. constructor; [|done].
  apply process_result_shape in Hr as [tail ->]. done.
Qed.

Lemma answers_none_iff self results answers :
  Forall2 (fun r a => process_result E self r = inr a) results answers ->
  omap id answers = []
  <-> Forall (fun r => process_result E self r = inr None) results.
Proof.
  induction 1 as [|r a results answers Hr _ IH]; [done|].
  destruct a as [a|]; simpl.
  - split; [done|]. intros Hall. apply Forall_cons in Hall as [Hr' _]. congruence.
  - rewrite IH. split; [by constructor|]. by intros [_ ?]%Forall_cons.
Qed.

(** X7. When [process_query] returns, its result is the empty string exactly
    when no document of the result set contributed an answer. *)
Theorem process_query_empty_iff self query s :
  process_query E self query = inr s ->
  (s = EmptyString <->
   exists results,
     confluence_cql E query 5 = inr results /\
     Forall (fun r => process_result E self r = inr None) results).
Proof.
  unfold process_query.
  destruct (confluence_cql E query 5) as [e|results] eqn:Hc; [done|]. simpl.
  destruct (map_raise (process_result E self) results) as [e|answers] eqn:Hm; [done|].
  simpl. intros [= <-]. apply map_raise_inr in Hm.
  rewrite (join_empty_iff _ _ (answers_nonempty _ _ _ Hm)).
  rewrite (answers_none_iff _ _ _ Hm). split.
  - intros Hall. by exists results.
  - by intros (results' & [= <-] & Hall).
Qed.

(** X8. A truthy warning or failure in the assistant's reply ends the call
    with the apology after that one prompt: no search is run and nothing is
    recorded, whatever the reply's answer and cql fields hold. *)
Theorem generate_response_warning_or_failure
    (fuel : nat) (self : AIChatManager) (failed_cql : option loc)
    (failure_count : Z) (w : World) :
  truthy (warning (reply E self failed_cql w)) <> None \/
  truthy (failure (reply E self failed_cql w)) <> None ->
  generate_response E (S fuel) self failed_cql failure_count w
  = Ret apology (log_prompt (cycle_prompt self failed_cql w) w).
Proof.
  intros H. rewrite generate_response_unfold. cbv zeta.
  destruct (truthy (warning (reply E self failed_cql w))); [done|].
  destruct (truthy (failure (reply E self failed_cql w))); [done|].
  by destruct H.
Qed.

(** X9. An answer given directly by the assistant (no warning, no failure)
    is returned as it is; no search is run and nothing is recorded. *)
Theorem generate_response_direct_answer
    (fuel : nat) (self : AIChatManager) (failed_cql : option loc)
    (failure_count : Z) (w : World) (a : string) :
  truthy (warning (reply E self failed_cql w)) = None ->
  truthy (failure (reply E self failed_cql w)) = None ->
  truthy (answer (reply E self failed_cql w)) = Some a ->
  generate_response E (S fuel) self failed_cql failure_count w
  = Ret a (log_prompt (cycle_prompt self failed_cql w) w).
Proof.
  intros Hw Hf Ha. rewrite generate_response_unfold. cbv zeta.
  by rewrite Hw, Hf, Ha.
Qed.

(** X10. When the search of the cycle that a call itself runs gives a
    non-empty result, the call returns exactly that result, after one prompt
    and one query, with nothing recorded as failed. *)
Theorem generate_response_hit
    (fuel : nat) (self : AIChatManager) (failed_cql : option loc)
    (failure_count : Z) (w : World) (c : list string) (response : string) :
  truthy (warning (reply E self failed_cql w)) = None ->
  truthy (failure (reply E self failed_cql w)) = None ->
  truthy (answer (reply E self failed_cql w)) = None ->
  truthy_list (cql (reply E self failed_cql w)) = Some c ->
  process_query E self (query_of c) = inr response ->
  response <> EmptyString ->
  generate_response E (S fuel) self failed_cql failure_count w
  = Ret response
      (log_query (query_of c) (log_prompt (cycle_prompt self failed_cql w) w)).
Proof.
  intros Hw Hf Ha Hc Hq Hne. rewrite generate_response_unfold. cbv zeta.
  rewrite Hw, Hf, Ha, Hc, Hq. by destruct response.
Qed.

(** X11. Called with [failed_cql=None], a search that finds nothing makes
    the call raise [AttributeError] (at [failed_cql.extend]), after the
    prompt and the query. *)
Theorem generate_response_none_miss
    (fuel : nat) (self : AIChatManager) (failure_count : Z) (w : World)
    (c : list string) :
  truthy (warning (reply E self None w)) = None ->
  truthy (failure (reply E self None w)) = None ->
  truthy (answer (reply E self None w)) = None ->
  truthy_list (cql (reply E self None w)) = Some c ->
  process_query E self (query_of c) = inr EmptyString ->
  generate_response E (S fuel) self None failure_count w
  = Raise AttributeError
      (log_query (query_of c) (log_prompt (cycle_prompt self None w) w)).
Proof.
  intros Hw Hf Ha Hc Hq. rewrite generate_response_unfold. cbv zeta.
  by rewrite Hw, Hf, Ha, Hc, Hq.
Qed.

Lemma generate_response_frame fuel self l failure_count w w' :
  final_world (generate_response E fuel self (Some l) failure_count w) = Some w' ->
  (forall l', l' <> l -> heap w' !! l' = heap w !! l') /\
  (exists added, heap w' !!! l = (heap w !!! l) ++ added) /\
  (exists ps qs,
     prompts w' = prompts w ++ ps /\ queries w' = queries w ++ qs /\
     (length qs <= length ps)%nat).
Proof.
  revert failure_count w w'.
  induction fuel as [|fuel IH]; intros failure_count w w'; [done|].
  rewrite generate_response_step. cbv zeta.
  destruct (formulate E self (prompts w) (heap w !!! l)) as [|a|c].
  - intros [= <-]. simpl. split; [done|]. split; [by exists []; rewrite app_nil_r|].
    exists [formulating_prompt self (Some (heap w !!! l))], [].
    rewrite app_nil_r. split; [done|]. split; [done|]. simpl. lia.
  - intros [= <-]. simpl. split; [done|]. split; [by exists []; rewrite app_nil_r|].
    exists [formulating_prompt self (Some (heap w !!! l))], [].
    rewrite app_nil_r. split; [done|]. split; [done|]. simpl. lia.
  - set (p := formulating_prompt self (Some (heap w !!! l))).
    assert (Hone : forall w1,
              Some (log_query (query_of c) (log_prompt p w)) = Some w1 ->
              (forall l', l' <> l -> heap w1 !! l' = heap w !! l') /\
              (exists added, heap w1 !!! l = (heap w !!! l) ++ added) /\
              (exists ps qs,
                 prompts w1 = prompts w ++ ps /\ queries w1 = queries w ++ qs /\
                 (length qs <= length ps)%nat)).
    { intros w1 [= <-]. simpl. split; [done|].
      split; [by exists []; rewrite app_nil_r|].
      exists [p], [query_of c]. split; [done|]. split; [done|]. simpl. lia. }
    assert (Hext : forall w1,
              Some (extend l c (log_query (query_of c) (log_prompt p w))) = Some w1 ->
              (forall l', l' <> l -> heap w1 !! l' = heap w !! l') /\
              (exists added, heap w1 !!! l = (heap w !!! l) ++ added) /\
              (exists ps qs,
                 prompts w1 = prompts w ++ ps /\ queries w1 = queries w ++ qs /\
                 (length qs <= length ps)%nat)).
    { intros w1 [= <-]. split.
      { intros l' Hl'. simpl. by rewrite lookup_insert_ne. }
      split; [exists c; exact (heap_extend l c _)|].
      exists [p], [query_of c]. split; [done|]. split; [done|]. simpl. lia. }
    destruct (process_query E self (query_of c)) as [e|response]; [apply Hone|].
    destruct (Str.is_empty response); [|apply Hone].
    destruct (failure_count + 1 <? 2); [|apply Hext].
    intros Hfw.
    assert (Hrec : final_world
                     (generate_response E fuel self (Some l) (failure_count + 1)
                        (extend l c (log_query (query_of c) (log_prompt p w))))
                   = Some w').
    { by destruct (generate_response E fuel self (Some l) (failure_count + 1) _). }
    destruct (IH _ _ _ Hrec) as (H1 & (added & H2) & (ps & qs & H3 & H4 & H5)).
    destruct (Hext _ eq_refl) as (G1 & (added0 & G2) & (ps0 & qs0 & G3 & G4 & G5)).
    split; [intros l' Hl'; by rewrite H1, G1|].
    split; [exists (added0 ++ added); by rewrite H2, G2, app_assoc|].
    exists (ps0 ++ ps), (qs0 ++ qs).
    rewrite H3, G3, H4, G4, !app_assoc, !length_app. repeat split; lia.
Qed.

(** X12. A call given a list object only ever appends to that list: no
    other list object changes, prompts and queries are only added, and no
    query is run without a prompt before it. *)
Theorem generate_response_only_appends
    (fuel : nat) (self : AIChatManager) (l : loc) (failure_count : Z)
    (w w' : World) :
  final_world (generate_response E fuel self (Some l) failure_count w) = Some w' ->
  (forall l', l' <> l -> heap w' !! l' = heap w !! l') /\
  (exists added, heap w' !!! l = (heap w !!! l) ++ added) /\
  (exists ps qs,
     prompts w' = prompts w ++ ps /\ queries w' = queries w ++ qs /\
     (length qs <= length ps)%nat).
Proof. apply generate_response_frame. Qed.

(** X13. Once the search of a call's own cycle has missed, the only string
    the call can return is the apology, whatever the retry finds. *)
Theorem generate_response_after_miss
    (fuel : nat) (self : AIChatManager) (l : loc) (failure_count : Z)
    (w : World) (c : list string) (r : string) :
  missed E self (prompts w) (heap w !!! l) c ->
  returned (generate_response E fuel self (Some l) failure_count w) = Some r ->
  r = apology.
Proof.
  intros [Hf Hq]. destruct fuel as [|fuel]; [done|].
  rewrite generate_response_step. cbv zeta. rewrite Hf, Hq. simpl.
  destruct (failure_count + 1 <? 2).
  - destruct (generate_response E fuel self (Some l) (failure_count + 1) _);
      simpl; [|done..]. by intros [= <-].
  - by intros [= <-].
Qed.

(** X14. A page whose body is nothing but markup gives no chunk, so the
    model is not asked and the page contributes nothing (with the default
    limit). *)
Theorem process_result_empty_body
    (self : AIChatManager) (result : SearchResult) (page : Page) :
  get_page_by_id E (content_id result) "body.view" = inr page ->
  Chunker.strip_tags (body_view_value page) = EmptyString ->
  environ E !! "OPENAI_MODEL_CONTEXT_LIMIT" = None ->
  process_result E self result = inr None.
Proof.
  intros Hp Hb He. unfold process_result. rewrite Hp. simpl. rewrite Hb.
  unfold Chunker.CONTEXT_LIMIT, getenv. rewrite He. reflexivity.
Qed.

(** X5. When the environment sets [OPENAI_MODEL_CONTEXT_LIMIT], the limit is
    a [str] and [range] refuses it: every page that is fetched makes
    [process_result] raise [TypeError], whatever its body. *)
Theorem process_result_limit_from_environ
    (self : AIChatManager) (result : SearchResult) (page : Page) (value : string) :
  environ E !! "OPENAI_MODEL_CONTEXT_LIMIT" = Some value ->
  get_page_by_id E (content_id result) "body.view" = inr page ->
  process_result E self result = inl TypeError.
Proof.
  intros He Hp. unfold process_result. rewrite Hp. simpl.
  unfold Chunker.CONTEXT_LIMIT, getenv. by rewrite He.
Qed.

End More.

Lemma process_result_is_tagged_witness :
  exists tail,
    "Page ID42: /api, Refs: /wiki/42" = "Page ID" +:+ "42" +:+ ": " +:+ tail.
Proof.
  apply (process_result_is_tagged second_try manager {| content_id := "42" |}).
  reflexivity.
Defined.

Lemma process_query_empty_iff_witness :
  process_query stubborn manager "(title ~ api)" = inr EmptyString /\
  exists results,
    confluence_cql stubborn "(title ~ api)" 5 = inr results /\
    Forall (fun r => process_result stubborn manager r = inr None) results.
Proof.
  split; [reflexivity|].
  apply (process_query_empty_iff stubborn manager "(title ~ api)" EmptyString);
    reflexivity.
Defined.

Lemma generate_response_warning_or_failure_witness :
  returned (generate_response hedging 1 manager (Some failed_cql_default) 0 fresh)
  = Some apology /\
  (queries <$> final_world
     (generate_response hedging 1 manager (Some failed_cql_default) 0 fresh))
  = Some [].
Proof.
  rewrite (generate_response_warning_or_failure hedging 0 manager
             (Some failed_cql_default) 0 fresh).
  - split; reflexivity.
  - left. discriminate.
Defined.

Lemma generate_response_direct_answer_witness :
  returned (generate_response direct 1 manager (Some failed_cql_default) 0 fresh)
  = Some "/api".
Proof.
  rewrite (generate_response_direct_answer direct 0 manager
             (Some failed_cql_default) 0 fresh "/api"); reflexivity.
Defined.

Lemma generate_response_hit_witness :
  returned (generate_response second_try 1 manager (Some failed_cql_default) 0
              after_first_miss)
  = Some "Page ID42: /api, Refs: /wiki/42".
Proof.
  rewrite (generate_response_hit second_try 0 manager (Some failed_cql_default) 0
             after_first_miss ["text ~ api"] "Page ID42: /api, Refs: /wiki/42");
    try reflexivity. discriminate.
Defined.

Lemma generate_response_none_miss_witness :
  raised (generate_response stubborn 2 manager None 0 fresh) = Some AttributeError.
Proof.
  rewrite (generate_response_none_miss stubborn 1 manager 0 fresh ["title ~ api"]);
    reflexivity.
Defined.

Lemma generate_response_only_appends_witness :
  exists w',
    final_world (generate_response stubborn 2 manager (Some 7%positive) 0 fresh)
    = Some w' /\
    heap w' !! failed_cql_default = None.
Proof.
  destruct (generate_response stubborn 2 manager (Some 7%positive) 0 fresh)
    as [r w'|e w'|] eqn:Hrun; [|discriminate Hrun..].
  exists w'. split; [reflexivity|].
  destruct (generate_response_only_appends stubborn 2 manager 7%positive 0 fresh w')
    as (Hframe & _).
  - exact (f_equal final_world Hrun).
  - rewrite Hframe; [reflexivity | discriminate].
Defined.

Lemma generate_response_after_miss_witness :
  returned (generate_response stubborn 2 manager (Some failed_cql_default) 0 fresh)
  = Some apology.
Proof.
  destruct (returned (generate_response stubborn 2 manager
                        (Some failed_cql_default) 0 fresh)) as [r|] eqn:Hr;
    [|discriminate Hr].
  f_equal.
  apply (generate_response_after_miss stubborn 2 manager failed_cql_default 0 fresh
           ["title ~ api"]); [split; reflexivity | exact Hr].
Defined.

Lemma process_result_empty_body_witness :
  process_result markup_only manager {| content_id := "42" |} = inr None.
Proof.
  apply (process_result_empty_body markup_only manager {| content_id := "42" |}
           {| body_view_value := "<p><b></b></p>"; links_webui := "/wiki/42" |});
    reflexivity.
Defined.

Lemma process_result_limit_from_environ_witness :
  process_result limit_set manager {| content_id := "42" |} = inl TypeError.
Proof.
  apply (process_result_limit_from_environ limit_set manager
           {| content_id := "42" |} api_page "100000").
  - apply lookup_singleton_eq.
  - reflexivity.
Defined.

End AIChatSpec.

(** ** The Slack front end *)

Module SlackBotSpec.

Import StrFacts SlackBot SlackScenario.

Lemma lower_char_idempotent c : lower_char (lower_char c) = lower_char c.
Proof. destruct c as [[] [] [] [] [] [] [] []]; reflexivity. Qed.

Lemma has_capital_append a b :
  has_capital (a +:+ b) = has_capital a || has_capital b.
Proof.
  induction a as [|c a IH]; [done|].
  rewrite append_cons. simpl. by rewrite IH, orb_assoc.
Qed.

Lemma has_capital_lower s : has_capital (lower s) = false.
Proof.
  induction s as [|c s IH]; [done|]. simpl.
  rewrite lower_char_idempotent, Ascii.eqb_refl. exact IH.
Qed.

Lemma prefix_has_capital needle hay :
  String.prefix needle hay = true -> has_capital needle = true -> has_capital hay = true.
Proof.
  revert hay. induction needle as [|c needle IH]; intros hay; [done|].
  destruct hay as [|d hay]; [done|]. simpl.
  destruct (Ascii.ascii_dec c d) as [->|]; [|done].
  intros Hp Hc. apply orb_true_iff in Hc as [Hc|Hc].
  - by rewrite Hc.
  - rewrite (IH _ Hp Hc). apply orb_true_r.
Qed.

Lemma contains_nil needle :
  contains needle EmptyString = String.prefix needle EmptyString.
Proof. cbn [contains]. by destruct (String.prefix needle EmptyString). Qed.

Lemma contains_cons needle d hay :
  contains needle (String d hay)
  = if String.prefix needle (String d hay) then true else contains needle hay.
Proof. reflexivity. Qed.

Lemma contains_has_capital needle hay :
  contains needle hay = true -> has_capital needle = true -> has_capital hay = true.
Proof.
  induction hay as [|d hay IH].
  - rewrite contains_nil. apply prefix_has_capital.
  - rewrite contains_cons.
    destruct (String.prefix needle (String d hay)) eqn:Hp.
    + intros _. by apply (prefix_has_capital _ _ Hp).
    + intros Hc Hn. simpl. rewrite (IH Hc Hn). apply orb_true_r.
Qed.

Lemma mention_never_found info text :
  has_capital (str_of (info_user info)) = true ->
  contains (mention info) (lower text) = false.
Proof.
  intros Hcap. destruct (contains (mention info) (lower text)) eqn:Hc; [|done].
  apply contains_has_capital in Hc.
  - by rewrite has_capital_lower in Hc.
  - unfold mention. by rewrite !has_capital_append, Hcap.
Qed.

(** X29. The text of every message of a thread is lowered before the mention
    is looked for, the mention is not: when the [user] value of the bot's
    info has a capital letter, or is missing, the mention is found in no
    text. *)
Theorem mention_with_capital_never_matches (info : BotInfo) (text : string) :
  has_capital (str_of (info_user info)) = true ->
  contains (mention info) (lower text) = false.
Proof. apply mention_never_found. Qed.

Lemma thread_loop_no_mention info len index messages acc :
  Forall (fun m => contains (mention info)
                     (lower (default EmptyString (msg_text m))) = false) messages ->
  len = index + Z.of_nat (length messages) ->
  thread_loop info len index messages acc
  = if existsb (mine info) messages
    then negb (from_option (mine info) false (last messages))
    else acc.
Proof.
  intros Hall. revert index acc.
  induction Hall as [|m messages Hm _ IH]; intros index acc Hlen; [done|].
  cbn [thread_loop existsb]. rewrite Hm.
  rewrite IH by (simpl in Hlen; lia).
  fold (mine info m).
  destruct messages as [|m' messages].
  - simpl. simpl in Hlen. rewrite orb_false_r.
    destruct (mine info m); [|done].
    destruct (Z.ltb_spec index (len - 1)); [lia|done].
  - change (last (m :: m' :: messages)) with (last (m' :: messages)).
    destruct (existsb (mine info) (m' :: messages)) eqn:Hex.
    + by rewrite orb_true_r.
    + rewrite orb_false_r. destruct (mine info m) eqn:Hmine; [|done].
      destruct (Z.ltb_spec index (len - 1)) as [_|Hge];
        [|simpl in Hlen; lia].
      (* no later message is the bot's, so the last one is not *)
      assert (Hlast : from_option (mine info) false (last (m' :: messages)) = false).
      { clear -Hex. revert m' Hex.
        induction messages as [|m'' messages IH]; intros m' Hex.
        - simpl in *. by rewrite orb_false_r in Hex.
        - change (last (m' :: m'' :: messages)) with (last (m'' :: messages)).
          apply IH. simpl in Hex. apply orb_false_iff in Hex as [_ Hex]. exact Hex. }
      by rewrite Hlast.
Qed.

(** X30. In a thread none of whose messages contains the mention, the bot
    takes itself to be addressed (app mentions and direct messages apart)
    exactly when it has posted in the thread and the last message is not its
    own. *)
Theorem speaking_to_me_in_thread
    (info : BotInfo) (conversations_replies : string -> string -> PyExn + list Message)
    (event : Event) (t ts ch : string) (messages : list Message) :
  ev_type event = Some t ->
  thread_ts event = Some ts ->
  channel event = Some ch ->
  conversations_replies ch ts = inr messages ->
  Forall (fun m => contains (mention info)
                     (lower (default EmptyString (msg_text m))) = false) messages ->
  speaking_to_me info conversations_replies (Some event)
  = inr (contains "app_mention" t
         || eq_opt (channel_type event) (Some "im")
         || (existsb (mine info) messages
             && negb (from_option (mine info) false (last messages)))).
Proof.
  intros Ht Hts Hch Hr Hall. unfold speaking_to_me.
  cbn [ebind]. rewrite Ht. cbn [ebind]. rewrite Hts, Hch. cbn [ebind].
  rewrite Hr. cbn [ebind].
  rewrite (thread_loop_no_mention info _ 0 messages false Hall) by lia.
  by destruct (existsb (mine info) messages).
Qed.

Lemma mention_with_capital_never_matches_witness :
  contains (mention me) (lower "<@U01UJ9ZLZ9Z> and the API?") = false.
Proof. apply mention_with_capital_never_matches. reflexivity. Defined.

Lemma speaking_to_me_in_thread_witness :
  speaking_to_me me history (Some in_thread) = inr true.
Proof.
  rewrite (speaking_to_me_in_thread me history in_thread "message"
             "1700000000.000100" "C01" follow_up); try reflexivity.
  repeat constructor.
Defined.

End SlackBotSpec.
